(** * Ent AntiSpam: a shallow embedding of [ent_antispam.py]

    The plugin samples the server's frame counter on a repeating timer
    ([FrameWatcher]); when too few frames were rendered during the last
    interval it runs [perform_check], which looks for piles of moving
    entities and applies the configured action to every member.

    Conventions of the embedding.
    - Python exceptions are values of [exn]; fallible code lives in the
      error monad [res].
    - Python [float] is IEEE binary64, i.e. Rocq's primitive [float].
    - Entity objects are mutable and shared between the snapshot, the piles
      and the rule engine.  They live in a heap ([World], a list of entity
      states); a Python reference to an entity is a position in that heap.
    - An action of the host on an entity ([remove], disabling the motion
      of its physics object) changes the state of that entity only.
    - When a call raises, its result is the exception alone.  Where what
      a raising call leaves behind matters, the definition also returns
      that state: [reload_configs] the globals, [_watch_state] and
      [FrameWatcher_reload_config_state] the watcher.
    - Builtins and host functions whose code is outside the plugin
      ([int] and [float] on strings, [Vector.get_distance_sqr], the
      location of the configuration directory) are variables of the
      section [Plugin]. *)

From Stdlib Require Import ZArith QArith Floats Ascii String List Lia.
From stdpp Require Import gmap strings list.

#[local] Set Warnings "-inexact-float".
#[local] Open Scope Z_scope.
#[local] Open Scope string_scope.

(** ** Exceptions and the error monad *)

Inductive exn : Set :=
  | KeyError
  | ValueError
  | AttributeError
  | ZeroDivisionError
  | OverflowError
  | OSError
  | ParsingError
  | JSONDecodeError.

Inductive res (A : Type) : Type :=
  | Ok (a : A)
  | Raise (e : exn).
Arguments Ok {A} a.
Arguments Raise {A} e.

Definition bind {A B : Type} (m : res A) (k : A -> res B) : res B :=
  match m with
  | Ok a => k a
  | Raise e => Raise e
  end.

Notation "'let*' x ':=' m 'in' k" := (bind m (fun x => k))
  (at level 10, x pattern, m at level 100, k at level 200).

(** ** Python string methods used by the plugin *)

Module PyStr.

(** [s.startswith(p)] *)
Definition startswith (s p : string) : bool := String.prefix p s.

(** [s.endswith(p)] *)
Definition endswith (s p : string) : bool :=
  let n := String.length s in
  let m := String.length p in
  if (m <=? n)%nat then String.eqb (substring (n - m) m s) p else false.

(** [s[:-1]] *)
Definition drop_last (s : string) : string :=
  substring 0 (String.length s - 1) s.

Definition lower_ascii (c : ascii) : ascii :=
  let n := nat_of_ascii c in
  if ((65 <=? n) && (n <=? 90))%nat then ascii_of_nat (n + 32) else c.

(** [s.lower()].  Strings are byte strings here; only the ASCII capitals
    are mapped, which is all that a comparison with an ASCII literal can
    observe. *)
Fixpoint lower (s : string) : string :=
  match s with
  | EmptyString => EmptyString
  | String c s' => String (lower_ascii c) (lower s')
  end.

End PyStr.

(** ** Rules, entities and the world *)

(** One element of [entity_actions.json] in the format the plugin
    expects: a dict with the keys ['classname'] and ['action'], both
    strings.  [json.load] also accepts files of another shape (a rule
    without an action, a classname that is not a string), on which
    [handle_entity] raises; such rule lists are outside this model. *)
Record Rule : Set := {
  rule_classname : string;
  rule_action : string
}.

(** [entity.origin]; finite coordinates are rationals. *)
Record Vector : Set := { vx : Q; vy : Q; vz : Q }.

(** The physics object of an entity, as far as the plugin queries it. *)
Record PhysicsObject : Set := {
  is_static : bool;
  collision_enabled : bool;
  asleep : bool;
  motion_enabled : bool
}.

(** The state of one entity object.  [removed] is set by
    [entity.remove()]; the engine destroys the entity later. *)
Record Entity : Set := {
  index : Z;
  classname : string;
  origin : Vector;
  physics_object : option PhysicsObject;
  removed : bool
}.

Definition default_entity : Entity :=
  {| index := 0; classname := EmptyString;
     origin := {| vx := 0; vy := 0; vz := 0 |};
     physics_object := None; removed := false |}.

#[export] Instance Entity_inhabited : Inhabited Entity :=
  populate default_entity.

(** The heap of entity objects.  A reference is a position. *)
Abbreviation World := (list Entity).
Abbreviation EntityRef := nat.

(** [entity.remove()] *)
Definition remove (e : Entity) : Entity :=
  {| index := index e; classname := classname e; origin := origin e;
     physics_object := physics_object e; removed := true |}.

(** [physics_obj.motion_enabled = False] *)
Definition disable_motion (po : PhysicsObject) : PhysicsObject :=
  {| is_static := is_static po; collision_enabled := collision_enabled po;
     asleep := asleep po; motion_enabled := false |}.

Definition set_physics_object (e : Entity) (po : PhysicsObject) : Entity :=
  {| index := index e; classname := classname e; origin := origin e;
     physics_object := Some po; removed := removed e |}.

(** ** The rule engine: [handle_entity] *)

(** What the loop does with a rule whose pattern matched: the two actions,
    or the [break]. *)
Definition apply_rule (rule : Rule) (w : World) (entity : EntityRef)
    : res (World * bool) :=
  if String.eqb (rule_action rule) "remove" then
    Ok (<[entity := remove (w !!! entity)]> w, true)
  else if String.eqb (rule_action rule) "freeze" then
    match physics_object (w !!! entity) with
    | None => Raise AttributeError
    | Some po =>
        Ok (<[entity :=
                set_physics_object (w !!! entity) (disable_motion po)]> w,
            true)
    end
  else Ok (w, false).

(** The [for rule in entity_actions] loop; [classname] was read from the
    entity before the loop.  A recursive call is a [continue]. *)
Fixpoint handle_entity_loop (rules : list Rule) (classname : string)
    (w : World) (entity : EntityRef) : res (World * bool) :=
  match rules with
  | [] => Ok (w, false)
  | rule :: rest =>
      if PyStr.endswith (rule_classname rule) "*" then
        if negb (PyStr.startswith classname
                   (PyStr.drop_last (rule_classname rule)))
        then handle_entity_loop rest classname w entity
        else apply_rule rule w entity
      else
        if negb (String.eqb classname (rule_classname rule))
        then handle_entity_loop rest classname w entity
        else apply_rule rule w entity
  end.

Definition handle_entity (entity_actions : list Rule) (w : World)
    (entity : EntityRef) : res (World * bool) :=
  let classname := classname (w !!! entity) in
  handle_entity_loop entity_actions classname w entity.

(** ** [is_static_entity] *)

Definition is_static_entity (e : Entity) : bool :=
  match physics_object e with
  | None => true
  | Some physics_obj =>
      is_static physics_obj
      || negb (collision_enabled physics_obj)
      || asleep physics_obj
      || negb (motion_enabled physics_obj)
  end.

(** ** Numbers: Python [int(x)] on a float *)

Module PyFloat.

(** A finite binary64 value is [m * 2^e] for integers [m] and [e]:
    numerator and denominator of that fraction. *)
Definition numerator (m : Z) (e : Z) : Z := m * 2 ^ Z.max e 0.
Definition denominator (e : Z) : Z := 2 ^ Z.max (- e) 0.

Definition signed (s : bool) (m : positive) : Z :=
  if s then Z.neg m else Z.pos m.

(** [int(x)]: truncation towards zero; [nan] and the infinities raise. *)
Definition to_int (x : float) : res Z :=
  match Prim2SF x with
  | S754_nan => Raise ValueError
  | S754_infinity _ => Raise OverflowError
  | S754_zero _ => Ok 0
  | S754_finite s m e =>
      Ok (Z.quot (numerator (signed s m) e) (denominator e))
  end.

(** [math.floor(x)] of a finite value, the rounding the specification
    names: towards minus infinity. *)
Definition floor (x : float) : Z :=
  match Prim2SF x with
  | S754_finite s m e => Z.div (numerator (signed s m) e) (denominator e)
  | _ => 0
  end.

(** [a / b]: division by a zero raises. *)
Definition truediv (a b : float) : res float :=
  if PrimFloat.is_zero b then Raise ZeroDivisionError
  else Ok (PrimFloat.div a b).

Definition is_finite_nonneg (x : float) : bool :=
  match Prim2SF x with
  | S754_zero _ => true
  | S754_finite s _ _ => negb s
  | _ => false
  end.

End PyFloat.

(** ** Configuration and plugin globals *)

(** A [ConfigParser]: section name to option name to raw value. *)
Abbreviation ConfigParser := (gmap string (gmap string string)).

(** [config[section][option]] *)
Definition config_get (config : ConfigParser) (section option : string)
    : res string :=
  match config !! section with
  | None => Raise KeyError
  | Some sec =>
      match sec !! option with
      | None => Raise KeyError
      | Some value => Ok value
      end
  end.

(** The module-level variables that [global] statements assign. *)
Record Globals : Type := {
  config : ConfigParser;
  entity_actions : list Rule;
  total_handled_entities_count : Z;
  total_checks_issued : Z
}.

Definition MIN_TICKS_PER_INTERVAL_AUTO_MULTIPLIER : float := 0.95%float.

(** ** Files *)

Record Path : Set := { dirname : string; namebase : string; ext : string }.

(** What the plugin can observe of the file system: whether a path is a
    file, what [ConfigParser.read] leaves in a fresh parser for it (and
    the exception it raises, if any; an unreadable file is skipped
    silently), and what [open] followed by [json.load] returns. *)
Record FileSystem : Type := {
  isfile : Path -> bool;
  config_read : Path -> ConfigParser * option exn;
  json_load : Path -> res (list Rule)
}.

Definition get_server_file (fs : FileSystem) (path : Path) : Path :=
  let server_path :=
    {| dirname := dirname path;
       namebase := namebase path ++ "_server";
       ext := ext path |} in
  if isfile fs server_path then server_path else path.

(** ** The timer and the frame watcher *)

(** [listeners.tick.Repeat], reduced to what the watcher uses: whether it
    is running, and with which interval.  Starting a running timer and
    stopping a stopped one do nothing. *)
Inductive Repeat : Set :=
  | Stopped
  | Running (interval : float).

Definition Repeat_start (r : Repeat) (interval : float) : Repeat :=
  match r with
  | Stopped => Running interval
  | Running _ => r
  end.

Definition Repeat_stop (r : Repeat) : Repeat := Stopped.

Record FrameWatcher : Set := {
  _repeat : Repeat;
  _last_watch_frame : option Z;
  _last_delta_frame : option Z;
  _min_frames_per_interval : Z
}.

(** A call of the rule engine, for stating what a pass did: the reference
    and the index it was called with, the state of the entity when it was
    called, and what it returned. *)
Record Call : Set := {
  call_entity : EntityRef;
  call_index : Z;
  call_state : Entity;
  call_result : bool
}.

Definition set_last_watch_frame (self : FrameWatcher) (v : option Z)
    : FrameWatcher :=
  {| _repeat := _repeat self;
     _last_watch_frame := v;
     _last_delta_frame := _last_delta_frame self;
     _min_frames_per_interval := _min_frames_per_interval self |}.

Definition set_last_delta_frame (self : FrameWatcher) (v : option Z)
    : FrameWatcher :=
  {| _repeat := _repeat self;
     _last_watch_frame := _last_watch_frame self;
     _last_delta_frame := v;
     _min_frames_per_interval := _min_frames_per_interval self |}.

Definition set_repeat (self : FrameWatcher) (r : Repeat) : FrameWatcher :=
  {| _repeat := r;
     _last_watch_frame := _last_watch_frame self;
     _last_delta_frame := _last_delta_frame self;
     _min_frames_per_interval := _min_frames_per_interval self |}.

Definition set_min_frames_per_interval (self : FrameWatcher) (v : Z)
    : FrameWatcher :=
  {| _repeat := _repeat self;
     _last_watch_frame := _last_watch_frame self;
     _last_delta_frame := _last_delta_frame self;
     _min_frames_per_interval := v |}.

(** [FrameWatcher.stop] *)
Definition FrameWatcher_stop (self : FrameWatcher) : FrameWatcher :=
  set_last_watch_frame (set_repeat self (Repeat_stop (_repeat self))) None.

(** [last_frame_count] *)
Definition last_frame_count (self : FrameWatcher) : Z :=
  match _last_delta_frame self with
  | None => -1
  | Some d => d
  end.

(** ** The mitigation pass, step by step *)

(** [EntityIter()]: every entity object of the world, in order. *)
Definition EntityIter (w : World) : list EntityRef := seq 0 (length w).

(** The loop state of step 3.  [cs_calls] is not a variable of the program:
    it records the calls of [handle_entity], in order. *)
Record ClearState : Set := {
  cs_world : World;
  handled_indexes : list Z;
  handled_entities_count : Z;
  cs_calls : list Call
}.

(** The inner loop of step 3: [for entity, index in pile]. *)
Fixpoint clear_pile (rules : list Rule) (pile : list (EntityRef * Z))
    (st : ClearState) : res ClearState :=
  match pile with
  | [] => Ok st
  | (entity, index) :: rest =>
      if bool_decide (index ∈ handled_indexes st) then
        clear_pile rules rest st
      else
        let* (w', handled) := handle_entity rules (cs_world st) entity in
        clear_pile rules rest
          {| cs_world := w';
             handled_indexes := handled_indexes st ++ [index];
             handled_entities_count :=
               if handled then handled_entities_count st + 1
               else handled_entities_count st;
             cs_calls :=
               cs_calls st ++
               [{| call_entity := entity; call_index := index;
                   call_state := cs_world st !!! entity;
                   call_result := handled |}] |}
  end.

(** The outer loop of step 3: [for pile in piles_to_clear]. *)
Fixpoint clear_piles (rules : list Rule)
    (piles_to_clear : list (list (EntityRef * Z))) (st : ClearState)
    : res ClearState :=
  match piles_to_clear with
  | [] => Ok st
  | pile :: rest =>
      let* st' := clear_pile rules pile st in
      clear_piles rules rest st'
  end.

Section Plugin.

(** [int(s)] and [float(s)] on strings. *)
Variable py_int : string -> res Z.
Variable py_float : string -> res float.

(** [a.get_distance_sqr(b)]; a finite result is a rational. *)
Variable get_distance_sqr : Vector -> Vector -> Q.

(** The directory of the configuration files, from [core.paths]. *)
Variable ENT_ANTISPAM_CFG_PATH : string.

(** *** [reload_configs] *)

Definition cfg_file (name extension : string) : Path :=
  {| dirname := ENT_ANTISPAM_CFG_PATH; namebase := name;
     ext := extension |}.

(** The globals after the call, and how the call ended. *)
Definition reload_configs (fs : FileSystem) (g : Globals)
    : Globals * res unit :=
  let '(parser, raised) :=
    config_read fs (get_server_file fs (cfg_file "config" ".ini")) in
  let g1 :=
    {| config := parser;
       entity_actions := entity_actions g;
       total_handled_entities_count := total_handled_entities_count g;
       total_checks_issued := total_checks_issued g |} in
  match raised with
  | Some e => (g1, Raise e)
  | None =>
      match json_load fs
              (get_server_file fs (cfg_file "entity_actions" ".json")) with
      | Raise e => (g1, Raise e)
      | Ok rules =>
          ({| config := parser;
              entity_actions := rules;
              total_handled_entities_count :=
                total_handled_entities_count g;
              total_checks_issued := total_checks_issued g |}, Ok tt)
      end
  end.

(** *** [get_min_frames_per_interval] *)

Definition get_min_frames_per_interval (g : Globals)
    (interval_per_tick : float) : res Z :=
  let* value :=
    config_get (config g) "frame_measurement" "min_frames_per_interval" in
  if String.eqb (PyStr.lower value) "auto" then
    let* raw := config_get (config g) "frame_measurement" "interval" in
    let* interval := py_float raw in
    let* per_tick := PyFloat.truediv interval interval_per_tick in
    PyFloat.to_int
      (PrimFloat.mul per_tick MIN_TICKS_PER_INTERVAL_AUTO_MULTIPLIER)
  else py_int value.

(** *** [perform_check] *)

(** Step 1: [ent_pos]. *)
Definition collect_entities (w : World) : list (EntityRef * Z * Vector) :=
  map (fun entity =>
         (entity, index (w !!! entity), origin (w !!! entity)))
      (EntityIter w).

(** Step 2, inner loop: the pile around [pile_origin]. *)
Fixpoint scan_pile (w : World) (pile_origin : Vector)
    (pile_radius_sqr : Z) (ent_pos : list (EntityRef * Z * Vector))
    : list (EntityRef * Z) :=
  match ent_pos with
  | [] => []
  | (entity, _, origin) :: rest =>
      if negb (Qle_bool (get_distance_sqr pile_origin origin)
                 (inject_Z pile_radius_sqr))
      then scan_pile w pile_origin pile_radius_sqr rest
      else if is_static_entity (w !!! entity)
      then scan_pile w pile_origin pile_radius_sqr rest
      else (entity, index (w !!! entity))
             :: scan_pile w pile_origin pile_radius_sqr rest
  end.

(** Step 2, outer loop over the anchors; [ent_pos] is the whole
    snapshot. *)
Fixpoint detect_piles (w : World) (pile_radius_sqr : Z)
    (max_entities_per_pile : Z) (ent_pos : list (EntityRef * Z * Vector))
    (anchors : list (EntityRef * Z * Vector))
    : list (list (EntityRef * Z)) :=
  match anchors with
  | [] => []
  | (_, _, pile_origin) :: rest =>
      let pile := scan_pile w pile_origin pile_radius_sqr ent_pos in
      if Z.of_nat (length pile) >? max_entities_per_pile
      then pile :: detect_piles w pile_radius_sqr max_entities_per_pile
                     ent_pos rest
      else detect_piles w pile_radius_sqr max_entities_per_pile
             ent_pos rest
  end.

(** The pass together with the calls of the rule engine it made. *)
Definition perform_check_calls (g : Globals) (w : World)
    : res (Globals * World * list Call) :=
  let* raw_max := config_get (config g) "piles" "max_entities_per_pile" in
  let* max_entities_per_pile := py_int raw_max in
  let* raw_radius := config_get (config g) "piles" "pile_radius" in
  let* pile_radius := py_int raw_radius in
  (* Step 1. Collect all networked entities *)
  let ent_pos := collect_entities w in
  (* Step 2. Detect piles to clear *)
  let pile_radius_sqr := pile_radius ^ 2 in
  let piles_to_clear :=
    detect_piles w pile_radius_sqr max_entities_per_pile ent_pos ent_pos in
  (* Step 3. Clear the piles *)
  let* st :=
    clear_piles (entity_actions g) piles_to_clear
      {| cs_world := w; handled_indexes := [];
         handled_entities_count := 0; cs_calls := [] |} in
  (* Step 4. Push some stats *)
  Ok ({| config := config g;
         entity_actions := entity_actions g;
         total_handled_entities_count :=
           total_handled_entities_count g + handled_entities_count st;
         total_checks_issued := total_checks_issued g + 1 |},
      cs_world st, cs_calls st).

Definition perform_check (g : Globals) (w : World)
    : res (Globals * World) :=
  let* (g', w', _) := perform_check_calls g w in
  Ok (g', w').

(** *** [FrameWatcher] *)

(** [__init__] *)
Definition FrameWatcher_init (g : Globals) (interval_per_tick : float)
    : res FrameWatcher :=
  let* threshold := get_min_frames_per_interval g interval_per_tick in
  Ok {| _repeat := Stopped;
        _last_watch_frame := None;
        _last_delta_frame := None;
        _min_frames_per_interval := threshold |}.

(** [_watch], as far as a tick that returns is concerned; [frame_count]
    is [global_vars.frame_count].  [_watch_state] below also gives the
    watcher that a tick leaves behind when the pass raises. *)
Definition _watch (self : FrameWatcher) (frame_count : Z) (g : Globals)
    (w : World) : res (FrameWatcher * Globals * World) :=
  let current_frame := frame_count in
  match _last_watch_frame self with
  | Some last =>
      let self := set_last_delta_frame self (Some (current_frame - last)) in
      if (current_frame - last <=? _min_frames_per_interval self)%Z then
        let* (g', w') := perform_check g w in
        Ok (set_last_watch_frame self (Some current_frame), g', w')
      else
        Ok (set_last_watch_frame self (Some current_frame), g, w)
  | None =>
      Ok (set_last_watch_frame self (Some current_frame), g, w)
  end.

(** [start] *)
Definition FrameWatcher_start (self : FrameWatcher) (g : Globals)
    : res FrameWatcher :=
  let* raw := config_get (config g) "frame_measurement" "interval" in
  let* interval := py_float raw in
  Ok (set_repeat self (Repeat_start (_repeat self) interval)).

(** [reload_config] *)
Definition FrameWatcher_reload_config (self : FrameWatcher) (g : Globals)
    (interval_per_tick : float) : res FrameWatcher :=
  let* threshold := get_min_frames_per_interval g interval_per_tick in
  FrameWatcher_start
    (FrameWatcher_stop (set_min_frames_per_interval self threshold)) g.

End Plugin.


(** * The vocabulary of the specification *)

(** When a rule applies to a classname, in the words of the
    specification: the pattern equals the classname, or the pattern ends in
    the wildcard marker and the classname starts with what precedes it. *)
Definition rule_matches (rule : Rule) (classname : string) : Prop :=
  rule_classname rule = classname
  \/ (PyStr.endswith (rule_classname rule) "*" = true
      /\ PyStr.startswith classname (PyStr.drop_last (rule_classname rule))
         = true).

#[export] Instance rule_matches_dec rule classname :
  Decision (rule_matches rule classname).
Proof. unfold rule_matches. apply _. Defined.

(** A well-formed [piles] section: both options are present and [int]
    accepts them. *)
Definition piles_config (py_int : string -> res Z) (g : Globals)
    (max_entities_per_pile pile_radius : Z) : Prop :=
  exists raw_max raw_radius,
    config_get (config g) "piles" "max_entities_per_pile" = Ok raw_max
    /\ py_int raw_max = Ok max_entities_per_pile
    /\ config_get (config g) "piles" "pile_radius" = Ok raw_radius
    /\ py_int raw_radius = Ok pile_radius.

(** What step 2 puts in a pile: a moving entity, with its own index. *)
Definition pile_member (w : World) (m : EntityRef * Z) : Prop :=
  is_static_entity (w !!! m.1) = false /\ m.2 = index (w !!! m.1).

(** What the rule engine answers for a classname: whether the first rule
    that matches asks for one of the two actions. *)
Definition rule_verdict (rules : list Rule) (cls : string) : bool :=
  match List.find (fun rule => bool_decide (rule_matches rule cls)) rules with
  | Some rule =>
      String.eqb (rule_action rule) "remove"
      || String.eqb (rule_action rule) "freeze"
  | None => false
  end.

(** The calls whose answer was "handled". *)
Definition handled_calls (calls : list Call) : list Call :=
  filter (fun c => call_result c = true) calls.

(** The state of step 3 agrees with the world [w0] the pass started in:
    entities whose index has not been handled are as they were, the handled
    indexes are those of the calls made and are distinct, the counter counts
    the calls that answered "handled", and every call was made on one of the
    [allowed] pile members, still in its initial state. *)
Record clear_inv (allowed : EntityRef * Z -> Prop) (rules : list Rule)
    (w0 : World) (st : ClearState) : Prop := {
  inv_untouched :
    forall ref, index (w0 !!! ref) ∉ handled_indexes st ->
                cs_world st !!! ref = w0 !!! ref;
  inv_handled : handled_indexes st = map call_index (cs_calls st);
  inv_nodup : NoDup (handled_indexes st);
  inv_count :
    handled_entities_count st
    = Z.of_nat (length (handled_calls (cs_calls st)));
  inv_calls :
    Forall
      (fun c =>
         allowed (call_entity c, call_index c)
         /\ pile_member w0 (call_entity c, call_index c)
         /\ call_state c = w0 !!! call_entity c
         /\ call_result c = rule_verdict rules (classname (call_state c)))
      (cs_calls st)
}.

(** A pile member that is one of the [allowed] ones. *)
Definition allowed_member (allowed : EntityRef * Z -> Prop) (w0 : World)
    (m : EntityRef * Z) : Prop :=
  allowed m /\ pile_member w0 m.

(** Membership in one of the piles. *)
Definition in_piles (piles : list (list (EntityRef * Z)))
    (m : EntityRef * Z) : Prop :=
  exists pile, pile ∈ piles /\ m ∈ pile.

(** The state step 3 starts in. *)
Definition clear_start (w : World) : ClearState :=
  {| cs_world := w; handled_indexes := [];
     handled_entities_count := 0; cs_calls := [] |}.

(** The globals after a pass that handled [n] entities. *)
Definition push_stats (g : Globals) (n : Z) : Globals :=
  {| config := config g;
     entity_actions := entity_actions g;
     total_handled_entities_count := total_handled_entities_count g + n;
     total_checks_issued := total_checks_issued g + 1 |}.

#[export] Instance Qle_dec (x y : Q) : Decision (x <= y)%Q.
Proof.
  destruct (Qlt_le_dec y x) as [Hlt | Hle].
  - right. apply Qlt_not_le. exact Hlt.
  - left. exact Hle.
Defined.

Section Neighbourhood.

Variable get_distance_sqr : Vector -> Vector -> Q.

(** [b] belongs to the neighbourhood of an anchor at [anchor_origin]:
    it is not static and its squared distance to the anchor is at most
    the squared radius. *)
Definition in_neighbourhood (w : World) (pile_radius_sqr : Z)
    (anchor_origin : Vector) (b : EntityRef * Z * Vector) : Prop :=
  is_static_entity (w !!! b.1.1) = false
  /\ (get_distance_sqr anchor_origin b.2 <= inject_Z pile_radius_sqr)%Q.

#[export] Instance in_neighbourhood_dec w r2 o b :
  Decision (in_neighbourhood w r2 o b).
Proof. unfold in_neighbourhood. apply _. Defined.

(** The neighbourhood of an anchor within the snapshot [S], as the pairs
    (entity, index) a pile carries. *)
Definition neighbourhood (w : World) (pile_radius_sqr : Z)
    (S : list (EntityRef * Z * Vector)) (anchor : EntityRef * Z * Vector)
    : list (EntityRef * Z) :=
  map (fun b => (b.1.1, index (w !!! b.1.1)))
    (filter (in_neighbourhood w pile_radius_sqr anchor.2) S).

(** An anchor whose neighbourhood has more than [max_size] members. *)
Definition oversized (w : World) (pile_radius_sqr max_size : Z)
    (S : list (EntityRef * Z * Vector)) (anchor : EntityRef * Z * Vector)
    : Prop :=
  max_size < Z.of_nat (length (neighbourhood w pile_radius_sqr S anchor)).

#[export] Instance oversized_dec w r2 m S a : Decision (oversized w r2 m S a).
Proof. unfold oversized. apply _. Defined.

End Neighbourhood.

(** The piles of a pass over the world [w]. *)
Definition piles_of (get_distance_sqr : Vector -> Vector -> Q) (w : World)
    (max_size pile_radius : Z) : list (list (EntityRef * Z)) :=
  detect_piles get_distance_sqr w (pile_radius ^ 2) max_size
    (collect_entities w) (collect_entities w).

(** Atomicity of a reload, as the specification words it: either the call
    returns and both the configuration and the rule list are the new ones,
    or it raises and both are the previous ones. *)
Definition reload_atomic (cfg_path : string) (fs : FileSystem) (g : Globals)
    : Prop :=
  let ini := get_server_file fs (cfg_file cfg_path "config" ".ini") in
  let json :=
    get_server_file fs (cfg_file cfg_path "entity_actions" ".json") in
  match reload_configs cfg_path fs g with
  | (g', Ok _) =>
      config g' = (config_read fs ini).1
      /\ json_load fs json = Ok (entity_actions g')
  | (g', Raise _) =>
      config g' = config g /\ entity_actions g' = entity_actions g
  end.

(** * A tick and what it leaves behind *)

Section Tick.

Variable py_int : string -> res Z.
Variable get_distance_sqr : Vector -> Vector -> Q.

(** [_watch], together with the watcher after the call.  The delta is
    assigned before the pass runs; the last sample is assigned after it, so
    that a pass that raises leaves the delta new and the sample old. *)
Definition _watch_state (self : FrameWatcher) (frame_count : Z)
    (g : Globals) (w : World) : FrameWatcher * res (Globals * World) :=
  let current_frame := frame_count in
  match _last_watch_frame self with
  | Some last =>
      let self := set_last_delta_frame self (Some (current_frame - last)) in
      if (current_frame - last <=? _min_frames_per_interval self)%Z then
        match perform_check py_int get_distance_sqr g w with
        | Raise e => (self, Raise e)
        | Ok (g', w') =>
            (set_last_watch_frame self (Some current_frame), Ok (g', w'))
        end
      else (set_last_watch_frame self (Some current_frame), Ok (g, w))
  | None => (set_last_watch_frame self (Some current_frame), Ok (g, w))
  end.

End Tick.

(** * The console command and the level listeners *)

Section Commands.

Variable py_int : string -> res Z.
Variable py_float : string -> res float.
Variable ENT_ANTISPAM_CFG_PATH : string.

(** [FrameWatcher.reload_config], together with the watcher it leaves
    behind when it raises: the threshold is resolved first, then the
    watcher is stopped, then started. *)
Definition FrameWatcher_reload_config_state (self : FrameWatcher)
    (g : Globals) (interval_per_tick : float) : FrameWatcher * res unit :=
  match get_min_frames_per_interval py_int py_float g interval_per_tick with
  | Raise e => (self, Raise e)
  | Ok threshold =>
      let stopped :=
        FrameWatcher_stop (set_min_frames_per_interval self threshold) in
      match FrameWatcher_start py_float stopped g with
      | Raise e => (stopped, Raise e)
      | Ok started => (started, Ok tt)
      end
  end.

(** The command [ent_antispam reload_configs]: [reload_configs()], then
    [frame_watcher.reload_config()]; the message it prints is left out. *)
Definition typed_server_ent_antispam_reload_configs (fs : FileSystem)
    (g : Globals) (frame_watcher : FrameWatcher) (interval_per_tick : float)
    : Globals * FrameWatcher * res unit :=
  let '(g1, reloaded) := reload_configs ENT_ANTISPAM_CFG_PATH fs g in
  match reloaded with
  | Raise e => (g1, frame_watcher, Raise e)
  | Ok _ =>
      let '(watcher, restarted) :=
        FrameWatcher_reload_config_state frame_watcher g1 interval_per_tick in
      (g1, watcher, restarted)
  end.

(** [listener_on_level_init]: the counters are reset, then [start] is
    scheduled after [level_init_delay]; the result is the globals and that
    delay (or what reading it raised). *)
Definition listener_on_level_init (g : Globals) : Globals * res float :=
  let g0 :=
    {| config := config g;
       entity_actions := entity_actions g;
       total_handled_entities_count := 0;
       total_checks_issued := 0 |} in
  (g0,
   let* raw := config_get (config g0) "frame_measurement" "level_init_delay" in
   py_float raw).

(** [listener_on_level_end] *)
Definition listener_on_level_end (frame_watcher : FrameWatcher)
    : FrameWatcher :=
  FrameWatcher_stop frame_watcher.

End Commands.

(** What the rule engine leaves of an entity it was called on: the entity
    marked as removed, the entity with the motion of its physics object
    disabled, or the entity as it was. *)
Definition entity_after (rules : list Rule) (e : Entity) : Entity :=
  match List.find
          (fun rule => bool_decide (rule_matches rule (classname e))) rules with
  | Some rule =>
      if String.eqb (rule_action rule) "remove" then remove e
      else if String.eqb (rule_action rule) "freeze" then
        match physics_object e with
        | Some po => set_physics_object e (disable_motion po)
        | None => e
        end
      else e
  | None => e
  end.

(** The entities that occur in the piles. *)
Definition pile_entities (piles : list (list (EntityRef * Z)))
    : list EntityRef :=
  concat (map (map fst) piles).

(** The state of step 3 after one more call of the rule engine, on
    [entity] with [idx], that returned the world [w'] and [handled]. *)
Definition call_made (st : ClearState) (entity : EntityRef) (idx : Z)
    (w' : World) (handled : bool) : ClearState :=
  {| cs_world := w';
     handled_indexes := handled_indexes st ++ [idx];
     handled_entities_count :=
       if handled then handled_entities_count st + 1
       else handled_entities_count st;
     cs_calls :=
       cs_calls st ++
       [{| call_entity := entity; call_index := idx;
           call_state := cs_world st !!! entity;
           call_result := handled |}] |}.

(** What a pass leaves of the world [w0], given the calls made so far:
    the world has the same size, an entity that was not called is as it
    was, and a called entity is what the rule engine makes of it. *)
Record world_effect (rules : list Rule) (w0 : World) (st : ClearState)
    : Prop := {
  eff_length : length (cs_world st) = length w0;
  eff_untouched :
    forall ref, ref ∉ map call_entity (cs_calls st) ->
                cs_world st !!! ref = w0 !!! ref;
  eff_called :
    Forall
      (fun c => cs_world st !!! call_entity c
                = entity_after rules (call_state c))
      (cs_calls st)
}.

(** ** Example data *)

Module Example.

Definition moving : PhysicsObject :=
  {| is_static := false; collision_enabled := true; asleep := false;
     motion_enabled := true |}.

Definition entity_at (i : Z) (cls : string) (x : Q) : Entity :=
  {| index := i; classname := cls;
     origin := {| vx := x; vy := 0; vz := 0 |};
     physics_object := Some moving; removed := false |}.

(** Exact squared distance. *)
Definition distance_sqr (a b : Vector) : Q :=
  ((vx a - vx b) * (vx a - vx b) + (vy a - vy b) * (vy a - vy b)
   + (vz a - vz b) * (vz a - vz b))%Q.

(** [int] and [float] on the literals the examples use. *)
Definition int_literal (s : string) : res Z :=
  if String.eqb s "1" then Ok 1
  else if String.eqb s "2" then Ok 2
  else Raise ValueError.

Definition float_literal (s : string) : res float :=
  if String.eqb s "2.0" then Ok 2.0%float else Raise ValueError.

Definition rules : list Rule :=
  [ {| rule_classname := "A*"; rule_action := "remove" |};
    {| rule_classname := "AB"; rule_action := "freeze" |} ].

Definition stop_rules : list Rule :=
  [ {| rule_classname := "X"; rule_action := "ignore" |};
    {| rule_classname := "X"; rule_action := "remove" |} ].

Definition world : World :=
  [ entity_at 1 "ABC" 0; entity_at 2 "AB" 1; entity_at 3 "X" 2 ].

Definition parser : ConfigParser :=
  {[ "piles" :=
       {[ "max_entities_per_pile" := "1"; "pile_radius" := "1" ]};
     "frame_measurement" :=
       {[ "interval" := "2.0"; "min_frames_per_interval" := "Auto" ]} ]}.

Definition globals : Globals :=
  {| config := parser; entity_actions := rules;
     total_handled_entities_count := 0; total_checks_issued := 0 |}.

Definition watcher : FrameWatcher :=
  {| _repeat := Running 2.0%float; _last_watch_frame := Some 1000;
     _last_delta_frame := Some 133; _min_frames_per_interval := 126 |}.

(** An entity without a physics object, and a world of static entities. *)
Definition brush : Entity :=
  {| index := 4; classname := "func_brush";
     origin := {| vx := 0; vy := 0; vz := 0 |};
     physics_object := None; removed := false |}.

Definition sleeping : PhysicsObject :=
  {| is_static := false; collision_enabled := true; asleep := true;
     motion_enabled := true |}.

Definition static_world : World :=
  [ brush;
    {| index := 5; classname := "prop_physics";
       origin := {| vx := 0; vy := 0; vz := 0 |};
       physics_object := Some sleeping; removed := false |} ].

Definition freeze_rules : list Rule :=
  [ {| rule_classname := "prop_*"; rule_action := "remove" |};
    {| rule_classname := "*"; rule_action := "freeze" |} ].

(** A configuration with both [piles] options at zero, and an [int] that
    also reads the literal 0. *)
Definition zero_parser : ConfigParser :=
  {[ "piles" :=
       {[ "max_entities_per_pile" := "0"; "pile_radius" := "0" ]} ]}.

Definition zero_int_literal (s : string) : res Z :=
  if String.eqb s "0" then Ok 0 else int_literal s.

Definition zero_globals : Globals :=
  {| config := zero_parser; entity_actions := rules;
     total_handled_entities_count := 0; total_checks_issued := 0 |}.

(** A configuration with an explicit threshold and an interval that
    [float] rejects, and files that hold it. *)
Definition broken_parser : ConfigParser :=
  {[ "frame_measurement" :=
       {[ "interval" := "fast"; "min_frames_per_interval" := "1" ]} ]}.

Definition broken_interval_files : FileSystem :=
  {| isfile := fun _ => false;
     config_read := fun _ => (broken_parser, None);
     json_load := fun _ => Ok stop_rules |}.

(** Globals whose configuration has the explicit threshold. *)
Definition broken_globals : Globals :=
  {| config := broken_parser; entity_actions := rules;
     total_handled_entities_count := 0; total_checks_issued := 0 |}.

(** Globals in the middle of a level. *)
Definition busy_globals : Globals :=
  {| config := parser; entity_actions := rules;
     total_handled_entities_count := 40; total_checks_issued := 7 |}.

Definition fresh_watcher : FrameWatcher :=
  {| _repeat := Running 2.0%float; _last_watch_frame := None;
     _last_delta_frame := None; _min_frames_per_interval := 126 |}.

(** A new version of the configuration: a larger radius. *)
Definition new_parser : ConfigParser :=
  {[ "piles" :=
       {[ "max_entities_per_pile" := "1"; "pile_radius" := "2" ]};
     "frame_measurement" :=
       {[ "interval" := "2.0"; "min_frames_per_interval" := "Auto" ]} ]}.

(** Both files are there and well formed. *)
Definition good_files : FileSystem :=
  {| isfile := fun _ => false;
     config_read := fun _ => (new_parser, None);
     json_load := fun _ => Ok stop_rules |}.

(** The configuration file is fine, the rule list is not valid JSON. *)
Definition bad_rules_files : FileSystem :=
  {| isfile := fun _ => false;
     config_read := fun _ => (new_parser, None);
     json_load := fun _ => Raise JSONDecodeError |}.

(** Files among which [config_server.ini] exists and holds the new
    configuration, while [config.ini] holds the old one. *)
Definition server_files : FileSystem :=
  {| isfile := fun p => String.eqb (namebase p) "config_server";
     config_read := fun p =>
       if String.eqb (namebase p) "config_server" then (new_parser, None)
       else (parser, None);
     json_load := fun _ => Ok stop_rules |}.

End Example.

(** * Properties *)

(** ** Strings *)

Lemma prefix_substring (n : nat) (s : string) :
  String.prefix (substring 0 n s) s = true.
Proof.
  revert n. induction s as [|c s IH]; intros [|n]; simpl; try reflexivity.
  destruct (ascii_dec c c) as [_|Hne]; [apply IH | congruence].
Qed.

Lemma startswith_drop_last (s : string) :
  PyStr.startswith s (PyStr.drop_last s) = true.
Proof. apply prefix_substring. Qed.

(** ** The rule engine *)

(** The two tests of the loop that lead to [continue] fail exactly when
    the rule matches. *)
Lemma loop_step_matches (rule : Rule) (rest : list Rule) (cls : string)
    (w : World) (entity : EntityRef) :
  rule_matches rule cls ->
  handle_entity_loop (rule :: rest) cls w entity = apply_rule rule w entity.
Proof.
  intros [Heq | [Hstar Hpre]]; simpl.
  - subst cls.
    destruct (PyStr.endswith (rule_classname rule) "*").
    + now rewrite startswith_drop_last.
    + now rewrite String.eqb_refl.
  - now rewrite Hstar, Hpre.
Qed.

Lemma loop_step_no_match (rule : Rule) (rest : list Rule) (cls : string)
    (w : World) (entity : EntityRef) :
  ~ rule_matches rule cls ->
  handle_entity_loop (rule :: rest) cls w entity
  = handle_entity_loop rest cls w entity.
Proof.
  intros Hno; simpl.
  destruct (PyStr.endswith (rule_classname rule) "*") eqn:Hstar.
  - destruct (PyStr.startswith cls (PyStr.drop_last (rule_classname rule)))
      eqn:Hpre; [|reflexivity].
    exfalso; apply Hno; right; split; [exact Hstar | exact Hpre].
  - destruct (String.eqb cls (rule_classname rule)) eqn:Heq; [|reflexivity].
    apply String.eqb_eq in Heq. exfalso; apply Hno; left; congruence.
Qed.

Lemma loop_skips_prefix (pre rules : list Rule) (cls : string) (w : World)
    (entity : EntityRef) :
  Forall (fun rule => ~ rule_matches rule cls) pre ->
  handle_entity_loop (pre ++ rules) cls w entity
  = handle_entity_loop rules cls w entity.
Proof.
  induction 1 as [|rule pre Hno _ IH]; [reflexivity|].
  rewrite <- app_comm_cons, loop_step_no_match by assumption. exact IH.
Qed.

Lemma apply_rule_other (rule : Rule) (w : World) (entity : EntityRef) :
  rule_action rule <> "remove" -> rule_action rule <> "freeze" ->
  apply_rule rule w entity = Ok (w, false).
Proof.
  intros Hr Hf. unfold apply_rule.
  apply String.eqb_neq in Hr, Hf. now rewrite Hr, Hf.
Qed.

Lemma handle_entity_find (rules : list Rule) (w : World)
    (entity : EntityRef) (cls : string) :
  handle_entity_loop rules cls w entity
  = match List.find (fun rule => bool_decide (rule_matches rule cls)) rules with
    | Some rule => apply_rule rule w entity
    | None => Ok (w, false)
    end.
Proof.
  induction rules as [|rule rest IH]; [reflexivity|].
  cbn [List.find]. destruct (bool_decide_reflect (rule_matches rule cls)).
  - now apply loop_step_matches.
  - rewrite loop_step_no_match by assumption. exact IH.
Qed.

(** C8. The rule engine takes the rules in list order and acts on the first
    one that matches, where a rule matches when its pattern equals the
    classname or ends in the wildcard marker with the classname starting
    with the rest of the pattern.  With the rules [(A*, remove); (AB,
    freeze)] an entity of class ABC is removed and reported handled. *)
Theorem handle_entity_first_match (rules : list Rule) (w : World)
    (entity : EntityRef) :
  handle_entity rules w entity
  = match List.find
            (fun rule =>
               bool_decide (rule_matches rule (classname (w !!! entity))))
            rules with
    | Some rule => apply_rule rule w entity
    | None => Ok (w, false)
    end
  /\ (classname (w !!! entity) = "ABC" ->
      handle_entity Example.rules w entity
      = Ok (<[entity := remove (w !!! entity)]> w, true)).
Proof.
  split.
  - apply handle_entity_find.
  - intros Hcls. unfold handle_entity. rewrite Hcls. reflexivity.
Qed.

Lemma handle_entity_first_match_witness :
  classname (Example.world !!! 0%nat) = "ABC"
  /\ handle_entity Example.rules Example.world 0
     = Ok (<[0%nat := remove (Example.world !!! 0%nat)]> Example.world, true).
Proof.
  split; [reflexivity|].
  apply (proj2 (handle_entity_first_match Example.rules Example.world 0)).
  reflexivity.
Defined.

(** C3. When the first rule that matches the classname has an action other
    than remove and freeze, the entity is reported as not handled and the
    world is left as it was, whatever rules follow in the list. *)
Theorem handle_entity_stops_at_other_action (pre post : list Rule)
    (rule : Rule) (w : World) (entity : EntityRef) :
  Forall (fun r => ~ rule_matches r (classname (w !!! entity))) pre ->
  rule_matches rule (classname (w !!! entity)) ->
  rule_action rule <> "remove" ->
  rule_action rule <> "freeze" ->
  handle_entity (pre ++ rule :: post) w entity = Ok (w, false).
Proof.
  intros Hpre Hrule Hr Hf. unfold handle_entity.
  rewrite loop_skips_prefix by exact Hpre.
  rewrite loop_step_matches by exact Hrule.
  now apply apply_rule_other.
Qed.

Lemma handle_entity_stops_at_other_action_witness :
  handle_entity Example.stop_rules Example.world 2
  = Ok (Example.world, false)
  /\ handle_entity (tail Example.stop_rules) Example.world 2
     = Ok (<[2%nat := remove (Example.world !!! 2%nat)]> Example.world, true).
Proof.
  split; [|reflexivity].
  apply (handle_entity_stops_at_other_action []
           [{| rule_classname := "X"; rule_action := "remove" |}]
           {| rule_classname := "X"; rule_action := "ignore" |}
           Example.world 2).
  - constructor.
  - left. reflexivity.
  - discriminate.
  - discriminate.
Defined.

(** ** Static entities *)

(** C9. An entity is static exactly when it has no physics object, or its
    physics object is static, has collisions disabled, is asleep, or has
    motion disabled. *)
Theorem is_static_entity_iff (e : Entity) :
  is_static_entity e = true
  <-> physics_object e = None
      \/ exists po, physics_object e = Some po
           /\ (is_static po = true \/ collision_enabled po = false
               \/ asleep po = true \/ motion_enabled po = false).
Proof.
  unfold is_static_entity. destruct (physics_object e) as [po|].
  - rewrite !orb_true_iff, !negb_true_iff. split.
    + intros H. right. exists po. split; [reflexivity | tauto].
    + intros [Hnone | (po' & Heq & H)]; [discriminate|].
      injection Heq as <-. tauto.
  - split; [now left | reflexivity].
Qed.

(** A non-static entity has a physics object with motion enabled. *)
Lemma moving_physics_object (e : Entity) :
  is_static_entity e = false ->
  exists po, physics_object e = Some po /\ motion_enabled po = true.
Proof.
  unfold is_static_entity. destruct (physics_object e) as [po|]; [|discriminate].
  rewrite !orb_false_iff, !negb_false_iff. intros (_ & Hm). now exists po.
Qed.

(** ** Stopping the watcher *)

(** C6, as the code has it.  [stop] stops the timer and resets the last
    sample frame; the last measured delta and the threshold stay as they
    were.  Stopping a stopped watcher changes nothing else, and stopping
    twice is stopping once.  The tick that follows a [stop] only stores a
    baseline, whatever delta was measured before. *)
Theorem stop_resets_last_watch_frame (self : FrameWatcher) :
  _last_watch_frame (FrameWatcher_stop self) = None
  /\ _last_delta_frame (FrameWatcher_stop self) = _last_delta_frame self
  /\ _min_frames_per_interval (FrameWatcher_stop self)
     = _min_frames_per_interval self
  /\ _repeat (FrameWatcher_stop self) = Stopped
  /\ FrameWatcher_stop (set_repeat self Stopped)
     = set_last_watch_frame (set_repeat self Stopped) None
  /\ FrameWatcher_stop (FrameWatcher_stop self) = FrameWatcher_stop self
  /\ (forall py_int get_distance_sqr frame_count g w,
        _watch py_int get_distance_sqr (FrameWatcher_stop self) frame_count
          g w
        = Ok (set_last_watch_frame (FrameWatcher_stop self)
                (Some frame_count), g, w)).
Proof. repeat split. Qed.

(** C6, as stated, fails: a watcher that has measured a delta of 133 frames
    still reports it after [stop]. *)
Lemma stop_keeps_last_delta_frame :
  ~ (_last_watch_frame (FrameWatcher_stop Example.watcher) = None
     /\ _last_delta_frame (FrameWatcher_stop Example.watcher) = None)
  /\ last_frame_count (FrameWatcher_stop Example.watcher) = 133.
Proof.
  split; [|reflexivity]. intros [_ H]. discriminate H.
Qed.

(** ** The pile detector *)

Section PileDetector.

Variable get_distance_sqr : Vector -> Vector -> Q.

Lemma scan_pile_filter (w : World) (r2 : Z)
    (S : list (EntityRef * Z * Vector)) (anchor : EntityRef * Z * Vector) :
  scan_pile get_distance_sqr w anchor.2 r2 S
  = neighbourhood get_distance_sqr w r2 S anchor.
Proof.
  unfold neighbourhood.
  induction S as [|[[entity idx] pos] S IH]; [reflexivity|].
  rewrite filter_cons. cbn [scan_pile].
  destruct (Qle_bool (get_distance_sqr anchor.2 pos) (inject_Z r2)) eqn:Hd;
    cbn [negb].
  - apply Qle_bool_iff in Hd.
    destruct (is_static_entity (w !!! entity)) eqn:Hs.
    + rewrite decide_False; [exact IH|].
      intros [Hs' _]. cbn in Hs'. congruence.
    + rewrite decide_True by (split; assumption).
      cbn [map fst snd]. now rewrite IH.
  - rewrite decide_False; [exact IH|].
    intros [_ Hd']. apply Qle_bool_iff in Hd'. cbn in Hd'. congruence.
Qed.

Lemma scan_pile_members (w : World) (o : Vector) (r2 : Z)
    (S : list (EntityRef * Z * Vector)) :
  Forall (pile_member w) (scan_pile get_distance_sqr w o r2 S).
Proof.
  induction S as [|[[entity idx] pos] S IH]; cbn [scan_pile]; [constructor|].
  destruct (negb _); [exact IH|].
  destruct (is_static_entity (w !!! entity)) eqn:Hs; [exact IH|].
  constructor; [split; [exact Hs | reflexivity] | exact IH].
Qed.

Lemma detect_piles_filter (w : World) (r2 max_size : Z)
    (S anchors : list (EntityRef * Z * Vector)) :
  detect_piles get_distance_sqr w r2 max_size S anchors
  = map (neighbourhood get_distance_sqr w r2 S)
      (filter (oversized get_distance_sqr w r2 max_size S) anchors).
Proof.
  induction anchors as [|anchor anchors IH]; [reflexivity|].
  rewrite filter_cons. destruct anchor as [[e i] o] eqn:Ha.
  cbn [detect_piles].
  change o with (e, i, o).2 at 1 2. rewrite scan_pile_filter.
  destruct (Z.gtb_spec
              (Z.of_nat
                 (length (neighbourhood get_distance_sqr w r2 S (e, i, o))))
              max_size) as [Hgt | Hle].
  - rewrite decide_True by (unfold oversized; lia).
    cbn [map]. now rewrite IH.
  - rewrite decide_False by (unfold oversized; lia). exact IH.
Qed.

Lemma detect_piles_members (w : World) (r2 max_size : Z)
    (S anchors : list (EntityRef * Z * Vector)) :
  Forall
    (fun pile =>
       max_size < Z.of_nat (length pile) /\ Forall (pile_member w) pile)
    (detect_piles get_distance_sqr w r2 max_size S anchors).
Proof.
  induction anchors as [|[[e i] o] anchors IH]; cbn [detect_piles];
    [constructor|].
  destruct (Z.gtb_spec
              (Z.of_nat (length (scan_pile get_distance_sqr w o r2 S)))
              max_size) as [Hgt | Hle]; [|exact IH].
  constructor; [|exact IH].
  split; [lia | apply scan_pile_members].
Qed.

(** C1. For every world, snapshot [S], radius and threshold, the piles that
    step 2 emits are, in snapshot order, the neighbourhoods of exactly the
    anchors whose neighbourhood has more than [max_size] members, where
    the neighbourhood of an anchor consists of the snapshot entries that
    are not static and whose squared distance to the anchor is at most the
    squared radius.  The anchor itself may be static.  Every emitted pile
    has more than [max_size] members and none of them is static. *)
Theorem detect_piles_neighbourhoods (w : World) (pile_radius max_size : Z)
    (S : list (EntityRef * Z * Vector)) :
  detect_piles get_distance_sqr w (pile_radius ^ 2) max_size S S
  = map (neighbourhood get_distance_sqr w (pile_radius ^ 2) S)
      (filter (oversized get_distance_sqr w (pile_radius ^ 2) max_size S) S)
  /\ (forall anchor m,
        m ∈ neighbourhood get_distance_sqr w (pile_radius ^ 2) S anchor
        <-> exists b,
              b ∈ S
              /\ m = (b.1.1, index (w !!! b.1.1))
              /\ is_static_entity (w !!! b.1.1) = false
              /\ (get_distance_sqr anchor.2 b.2
                  <= inject_Z (pile_radius ^ 2))%Q)
  /\ Forall
       (fun pile =>
          max_size < Z.of_nat (length pile)
          /\ Forall (fun m => is_static_entity (w !!! m.1) = false) pile)
       (detect_piles get_distance_sqr w (pile_radius ^ 2) max_size S S).
Proof.
  split; [apply detect_piles_filter|]. split.
  - intros anchor m. unfold neighbourhood.
    rewrite list_elem_of_In, in_map_iff. split.
    + intros (b & <- & Hb). apply list_elem_of_In in Hb.
      apply list_elem_of_filter in Hb as [[Hs Hd] Hb].
      exists b. repeat split; assumption.
    + intros (b & Hb & -> & Hs & Hd). exists b. split; [reflexivity|].
      apply list_elem_of_In, list_elem_of_filter. now repeat split.
  - eapply Forall_impl; [apply detect_piles_members|].
    intros pile [Hlen Hmem]. split; [exact Hlen|].
    eapply Forall_impl; [exact Hmem|]. now intros m [Hs _].
Qed.

End PileDetector.

(** ** The mitigation pass *)

Lemma apply_rule_frame (rule : Rule) (w : World) (entity : EntityRef)
    (po : PhysicsObject) :
  physics_object (w !!! entity) = Some po ->
  exists w',
    apply_rule rule w entity
    = Ok (w', String.eqb (rule_action rule) "remove"
              || String.eqb (rule_action rule) "freeze")
    /\ forall ref, ref <> entity -> w' !!! ref = w !!! ref.
Proof.
  intros Hpo. unfold apply_rule. rewrite Hpo.
  destruct (String.eqb (rule_action rule) "remove");
    [|destruct (String.eqb (rule_action rule) "freeze")];
    eexists; (split; [reflexivity|]); intros ref Hne;
    try reflexivity; now apply list_lookup_total_insert_ne.
Qed.

(** On an entity that has a physics object the rule engine returns, gives
    the verdict of the rules, and touches no other entity. *)
Lemma handle_entity_frame (rules : list Rule) (w : World)
    (entity : EntityRef) (po : PhysicsObject) :
  physics_object (w !!! entity) = Some po ->
  exists w',
    handle_entity rules w entity
    = Ok (w', rule_verdict rules (classname (w !!! entity)))
    /\ forall ref, ref <> entity -> w' !!! ref = w !!! ref.
Proof.
  intros Hpo. unfold handle_entity, rule_verdict.
  rewrite handle_entity_find.
  destruct (List.find _ rules) as [rule|].
  - now apply apply_rule_frame with po.
  - exists w. split; [reflexivity | reflexivity].
Qed.

Lemma clear_inv_start (allowed : EntityRef * Z -> Prop) (rules : list Rule)
    (w : World) :
  clear_inv allowed rules w (clear_start w).
Proof.
  split; cbn; try reflexivity; constructor.
Qed.

Lemma handled_calls_snoc (calls : list Call) (c : Call) :
  Z.of_nat (length (handled_calls (calls ++ [c])))
  = if call_result c then Z.of_nat (length (handled_calls calls)) + 1
    else Z.of_nat (length (handled_calls calls)).
Proof.
  unfold handled_calls. rewrite filter_app, length_app, filter_cons, filter_nil.
  destruct (call_result c) eqn:Hc.
  - rewrite decide_True by reflexivity. cbn [length]. lia.
  - rewrite decide_False by discriminate. cbn [length]. lia.
Qed.

Section ClearPiles.

Variable allowed : EntityRef * Z -> Prop.
Variable rules : list Rule.
Variable w0 : World.

(** One call of the rule engine inside step 3 keeps the invariant. *)
Lemma clear_inv_step (st : ClearState) (entity : EntityRef) (idx : Z) :
  clear_inv allowed rules w0 st ->
  allowed_member allowed w0 (entity, idx) ->
  idx ∉ handled_indexes st ->
  exists w' handled,
    handle_entity rules (cs_world st) entity = Ok (w', handled)
    /\ clear_inv allowed rules w0
         {| cs_world := w';
            handled_indexes := handled_indexes st ++ [idx];
            handled_entities_count :=
              if handled then handled_entities_count st + 1
              else handled_entities_count st;
            cs_calls :=
              cs_calls st ++
              [{| call_entity := entity; call_index := idx;
                  call_state := cs_world st !!! entity;
                  call_result := handled |}] |}.
Proof.
  intros [Hun Hh Hnd Hcnt Hcalls] [Hal [Hmoving Hidx]] Hfresh.
  cbn [fst snd] in Hmoving, Hidx.
  assert (Hsame : cs_world st !!! entity = w0 !!! entity)
    by (apply Hun; now rewrite <- Hidx).
  destruct (moving_physics_object _ Hmoving) as (po & Hpo & _).
  destruct (handle_entity_frame rules (cs_world st) entity po)
    as (w' & Hrun & Hframe); [now rewrite Hsame|].
  eexists w', _. split; [exact Hrun|].
  split; cbn [cs_world handled_indexes handled_entities_count cs_calls].
  - intros ref Hnot. apply not_elem_of_app in Hnot as [Hnot Hne].
    rewrite Hframe; [now apply Hun|].
    intros ->. apply Hne. rewrite <- Hidx. now left.
  - now rewrite map_app, Hh.
  - apply NoDup_app. split; [exact Hnd|]. split; [|apply NoDup_singleton].
    intros x Hx Hx'. apply list_elem_of_singleton in Hx'. now subst x.
  - rewrite handled_calls_snoc. cbn [call_result]. rewrite Hcnt.
    now destruct (rule_verdict _ _).
  - apply Forall_app. split; [exact Hcalls|].
    constructor; [|constructor].
    cbn [call_entity call_index call_state call_result].
    split; [exact Hal|]. split; [now split|]. now split.
Qed.

(** The inner loop of step 3 returns, keeps the invariant, and has
    handled exactly the indexes handled before and those of the pile. *)
Lemma clear_pile_inv (pile : list (EntityRef * Z)) (st : ClearState) :
  clear_inv allowed rules w0 st ->
  Forall (allowed_member allowed w0) pile ->
  exists st',
    clear_pile rules pile st = Ok st'
    /\ clear_inv allowed rules w0 st'
    /\ forall i, i ∈ handled_indexes st'
                 <-> i ∈ handled_indexes st \/ exists ref, (ref, i) ∈ pile.
Proof.
  intros Hinv Hpile. revert st Hinv.
  induction Hpile as [|[entity idx] pile Hm _ IH]; intros st Hinv.
  - exists st. split; [reflexivity|]. split; [exact Hinv|].
    intros i; split; [now left|].
    intros [H | [ref H]]; [exact H | now apply elem_of_nil in H].
  - cbn [clear_pile]. case_bool_decide as Hseen.
    + destruct (IH st Hinv) as (st' & Hrun & Hinv' & Hcov).
      exists st'. split; [exact Hrun|]. split; [exact Hinv'|].
      intros i; split.
      * intros Hi. apply Hcov in Hi as [Hi | [ref Hi]]; [now left|].
        right. exists ref. now right.
      * intros [Hi | [ref Hi]]; apply Hcov; [now left|].
        apply elem_of_cons in Hi as [Heq | Hi]; [|right; now exists ref].
        injection Heq as -> ->. now left.
    + destruct (clear_inv_step st entity idx Hinv Hm Hseen)
        as (w' & handled & Hrun & Hinv1).
      rewrite Hrun. cbn [bind].
      destruct (IH _ Hinv1) as (st' & Hrun' & Hinv' & Hcov).
      exists st'. split; [exact Hrun'|]. split; [exact Hinv'|].
      intros i; split.
      * intros Hi. apply Hcov in Hi as [Hi | [ref Hi]].
        -- cbn [handled_indexes] in Hi.
           apply elem_of_app in Hi as [Hi | Hi]; [now left|].
           apply list_elem_of_singleton in Hi as ->.
           right. exists entity. now left.
        -- right. exists ref. now right.
      * intros Hi. apply Hcov. cbn [handled_indexes].
        destruct Hi as [Hi | [ref Hi]].
        -- left. apply elem_of_app. now left.
        -- apply elem_of_cons in Hi as [Heq | Hi]; [|right; now exists ref].
           injection Heq as -> ->. left. apply elem_of_app. right. now left.
Qed.

Lemma clear_piles_inv (piles : list (list (EntityRef * Z)))
    (st : ClearState) :
  clear_inv allowed rules w0 st ->
  Forall (Forall (allowed_member allowed w0)) piles ->
  exists st',
    clear_piles rules piles st = Ok st'
    /\ clear_inv allowed rules w0 st'
    /\ forall i, i ∈ handled_indexes st'
                 <-> i ∈ handled_indexes st
                     \/ exists pile ref, pile ∈ piles /\ (ref, i) ∈ pile.
Proof.
  intros Hinv Hpiles. revert st Hinv.
  induction Hpiles as [|pile piles Hpile _ IH]; intros st Hinv.
  - exists st. split; [reflexivity|]. split; [exact Hinv|].
    intros i; split; [now left|].
    intros [H | (pile & ref & H & _)]; [exact H | now apply elem_of_nil in H].
  - cbn [clear_piles].
    destruct (clear_pile_inv pile st Hinv Hpile)
      as (st1 & Hrun1 & Hinv1 & Hcov1).
    rewrite Hrun1. cbn [bind].
    destruct (IH st1 Hinv1) as (st' & Hrun' & Hinv' & Hcov').
    exists st'. split; [exact Hrun'|]. split; [exact Hinv'|].
    intros i; split.
    + intros Hi. apply Hcov' in Hi as [Hi | (p & ref & Hp & Hi)].
      * apply Hcov1 in Hi as [Hi | [ref Hi]]; [now left|].
        right. exists pile, ref. split; [now left | exact Hi].
      * right. exists p, ref. split; [now right | exact Hi].
    + intros Hi. apply Hcov'. destruct Hi as [Hi | (p & ref & Hp & Hi)].
      * left. apply Hcov1. now left.
      * apply elem_of_cons in Hp as [-> | Hp].
        -- left. apply Hcov1. right. now exists ref.
        -- right. now exists p, ref.
Qed.

End ClearPiles.

Section Pass.

Variable py_int : string -> res Z.
Variable get_distance_sqr : Vector -> Vector -> Q.

(** With a well-formed [piles] section the pass runs to completion. *)
Lemma perform_check_calls_run (g : Globals) (w : World)
    (max_size pile_radius : Z) :
  piles_config py_int g max_size pile_radius ->
  exists st,
    clear_inv (in_piles (piles_of get_distance_sqr w max_size pile_radius))
      (entity_actions g) w st
    /\ (forall i, i ∈ handled_indexes st
                  <-> exists pile ref,
                        pile ∈ piles_of get_distance_sqr w max_size
                                 pile_radius
                        /\ (ref, i) ∈ pile)
    /\ perform_check_calls py_int get_distance_sqr g w
       = Ok (push_stats g (handled_entities_count st),
             cs_world st, cs_calls st).
Proof.
  intros (raw_max & raw_radius & Hmax & Hpmax & Hrad & Hprad).
  set (piles := piles_of get_distance_sqr w max_size pile_radius).
  destruct (clear_piles_inv (in_piles piles) (entity_actions g) w
              piles (clear_start w))
    as (st & Hrun & Hinv & Hcov).
  - apply clear_inv_start.
  - apply Forall_forall. intros pile Hpile.
    apply Forall_forall. intros m Hm. split.
    + exists pile. now split.
    + pose proof (detect_piles_members get_distance_sqr w
                    (pile_radius ^ 2) max_size (collect_entities w)
                    (collect_entities w)) as Hall.
      rewrite Forall_forall in Hall.
      destruct (Hall pile Hpile) as [_ Hmem].
      rewrite Forall_forall in Hmem. now apply Hmem.
  - exists st. split; [exact Hinv|]. split.
    + intros i; split.
      * intros Hi. apply Hcov in Hi as [Hi | Hi]; [|exact Hi].
        now apply elem_of_nil in Hi.
      * intros Hi. apply Hcov. now right.
    + unfold perform_check_calls.
      rewrite Hmax; cbn [bind]. rewrite Hpmax; cbn [bind].
      rewrite Hrad; cbn [bind]. rewrite Hprad; cbn [bind].
      unfold piles, piles_of, clear_start in Hrun. rewrite Hrun.
      reflexivity.
Qed.

End Pass.

Section PassProperties.

Variable py_int : string -> res Z.
Variable get_distance_sqr : Vector -> Vector -> Q.

(** C5. A pass over a world with a well-formed [piles] section returns.
    The indexes it passed to the rule engine are pairwise distinct,
    whatever the engine answered, and are exactly the indexes of the
    members of the piles; every answer is the verdict of the rules on the
    entity's classname; [total_checks_issued] grows by one and
    [total_handled_entities_count] by the number of calls that answered
    "handled". *)
Theorem perform_check_handles_once (g : Globals) (w : World)
    (max_size pile_radius : Z) :
  piles_config py_int g max_size pile_radius ->
  exists g' w' calls,
    perform_check_calls py_int get_distance_sqr g w = Ok (g', w', calls)
    /\ perform_check py_int get_distance_sqr g w = Ok (g', w')
    /\ NoDup (map call_index calls)
    /\ (forall i, i ∈ map call_index calls
                  <-> exists pile ref,
                        pile ∈ piles_of get_distance_sqr w max_size
                                 pile_radius
                        /\ (ref, i) ∈ pile)
    /\ Forall
         (fun c =>
            call_result c
            = rule_verdict (entity_actions g) (classname (call_state c)))
         calls
    /\ total_checks_issued g' = total_checks_issued g + 1
    /\ total_handled_entities_count g'
       = total_handled_entities_count g
         + Z.of_nat (length (handled_calls calls)).
Proof.
  intros Hcfg.
  destruct (perform_check_calls_run py_int get_distance_sqr g w
              max_size pile_radius Hcfg)
    as (st & [Hun Hh Hnd Hcnt Hcalls] & Hcov & Hrun).
  exists (push_stats g (handled_entities_count st)), (cs_world st),
    (cs_calls st).
  split; [exact Hrun|].
  split; [unfold perform_check; now rewrite Hrun|].
  split; [now rewrite <- Hh|].
  split; [intros i; rewrite <- Hh; apply Hcov|].
  split.
  - eapply Forall_impl; [exact Hcalls|]. now intros c (_ & _ & _ & H).
  - cbn [push_stats total_checks_issued total_handled_entities_count].
    now rewrite Hcnt.
Qed.

(** C10. A pass over a world with a well-formed [piles] section returns
    without raising.  Every call of the rule engine it made was on a
    member of one of the piles, in the state the entity had when the pass
    started: not static, hence with a physics object whose motion is
    enabled, so that the freeze action finds a physics object. *)
Theorem perform_check_calls_on_moving (g : Globals) (w : World)
    (max_size pile_radius : Z) :
  piles_config py_int g max_size pile_radius ->
  exists g' w' calls,
    perform_check_calls py_int get_distance_sqr g w = Ok (g', w', calls)
    /\ Forall
         (fun c =>
            in_piles (piles_of get_distance_sqr w max_size pile_radius)
              (call_entity c, call_index c)
            /\ call_state c = w !!! call_entity c
            /\ is_static_entity (call_state c) = false
            /\ exists po,
                 physics_object (call_state c) = Some po
                 /\ motion_enabled po = true)
         calls.
Proof.
  intros Hcfg.
  destruct (perform_check_calls_run py_int get_distance_sqr g w
              max_size pile_radius Hcfg)
    as (st & [_ _ _ _ Hcalls] & _ & Hrun).
  exists (push_stats g (handled_entities_count st)), (cs_world st),
    (cs_calls st).
  split; [exact Hrun|].
  eapply Forall_impl; [exact Hcalls|].
  intros c (Hal & [Hmoving _] & Hstate & _). cbn [fst] in Hmoving.
  rewrite <- Hstate in Hmoving.
  split; [exact Hal|]. split; [exact Hstate|]. split; [exact Hmoving|].
  now apply moving_physics_object.
Qed.

(** How [_watch] and [_watch_state] relate. *)
Lemma watch_state_result (self : FrameWatcher) (frame_count : Z)
    (g : Globals) (w : World) :
  _watch py_int get_distance_sqr self frame_count g w
  = match _watch_state py_int get_distance_sqr self frame_count g w with
    | (watcher, Ok (g', w')) => Ok (watcher, g', w')
    | (_, Raise e) => Raise e
    end.
Proof.
  unfold _watch, _watch_state.
  destruct (_last_watch_frame self) as [last|]; [|reflexivity].
  destruct (_ <=? _)%Z; [|reflexivity].
  now destruct (perform_check py_int get_distance_sqr g w) as [[g' w']|e].
Qed.

(** A pass that returns has counted itself. *)
Lemma perform_check_counts (g g' : Globals) (w w' : World) :
  perform_check py_int get_distance_sqr g w = Ok (g', w') ->
  total_checks_issued g' = total_checks_issued g + 1.
Proof.
  unfold perform_check, perform_check_calls.
  destruct (config_get (config g) "piles" "max_entities_per_pile")
    as [raw_max|]; cbn [bind]; [|discriminate].
  destruct (py_int raw_max) as [max_size|]; cbn [bind]; [|discriminate].
  destruct (config_get (config g) "piles" "pile_radius")
    as [raw_radius|]; cbn [bind]; [|discriminate].
  destruct (py_int raw_radius) as [pile_radius|]; cbn [bind];
    [|discriminate].
  destruct (clear_piles _ _ _) as [st|]; cbn [bind]; [|discriminate].
  now intros [= <- _].
Qed.

(** C4, as the code has it.  One tick of the watcher, with the watcher it
    leaves behind.  Without a previous sample the tick runs no pass and
    only stores the frame counter: globals, world and the last delta stay
    as they were.  With a previous sample the tick stores the delta; when
    the delta is above the threshold it runs no pass and stores the frame
    counter; when the delta is at most the threshold it runs the pass
    exactly once and ends as the pass ends.  If the pass returns,
    [total_checks_issued] has grown by one and the frame counter is stored
    (and the pass does return when the [piles] section is well formed).  If
    the pass raises, the tick raises the same exception and the last sample
    is left as it was, with the new delta already stored.  So the frame
    counter is the new last sample exactly for the ticks that return. *)
Theorem watch_tick_outcome (self : FrameWatcher) (frame_count : Z)
    (g : Globals) (w : World) :
  (_last_watch_frame self = None ->
   _watch_state py_int get_distance_sqr self frame_count g w
   = (set_last_watch_frame self (Some frame_count), Ok (g, w)))
  /\ (forall last,
        _last_watch_frame self = Some last ->
        _min_frames_per_interval self < frame_count - last ->
        _watch_state py_int get_distance_sqr self frame_count g w
        = (set_last_watch_frame
             (set_last_delta_frame self (Some (frame_count - last)))
             (Some frame_count), Ok (g, w)))
  /\ (forall last,
        _last_watch_frame self = Some last ->
        frame_count - last <= _min_frames_per_interval self ->
        (forall g' w',
            perform_check py_int get_distance_sqr g w = Ok (g', w') ->
            total_checks_issued g' = total_checks_issued g + 1
            /\ _watch_state py_int get_distance_sqr self frame_count g w
               = (set_last_watch_frame
                    (set_last_delta_frame self (Some (frame_count - last)))
                    (Some frame_count), Ok (g', w')))
        /\ (forall e,
              perform_check py_int get_distance_sqr g w = Raise e ->
              _watch_state py_int get_distance_sqr self frame_count g w
              = (set_last_delta_frame self (Some (frame_count - last)),
                 Raise e))
        /\ (forall max_size pile_radius,
              piles_config py_int g max_size pile_radius ->
              exists g' w',
                perform_check py_int get_distance_sqr g w = Ok (g', w')))
  /\ (forall self' g' w',
        _watch_state py_int get_distance_sqr self frame_count g w
        = (self', Ok (g', w')) ->
        _last_watch_frame self' = Some frame_count)
  /\ (forall self' e,
        _watch_state py_int get_distance_sqr self frame_count g w
        = (self', Raise e) ->
        _last_watch_frame self' = _last_watch_frame self
        /\ _last_watch_frame self' <> None
        /\ perform_check py_int get_distance_sqr g w = Raise e).
Proof.
  unfold _watch_state. split; [|split; [|split; [|split]]].
  - now intros ->.
  - intros last -> Hgt. cbn [_min_frames_per_interval set_last_delta_frame].
    now rewrite (proj2 (Z.leb_gt _ _)) by lia.
  - intros last Hlast Hle. rewrite Hlast.
    cbn [_min_frames_per_interval set_last_delta_frame].
    rewrite (proj2 (Z.leb_le _ _)) by lia. split; [|split].
    + intros g' w' Hpass.
      split; [exact (perform_check_counts _ _ _ _ Hpass)|].
      now rewrite Hpass.
    + intros e Hpass. now rewrite Hpass.
    + intros max_size pile_radius Hcfg.
      destruct (perform_check_calls_run py_int get_distance_sqr g w
                  max_size pile_radius Hcfg) as (st & _ & _ & Hrun).
      exists (push_stats g (handled_entities_count st)), (cs_world st).
      unfold perform_check. now rewrite Hrun.
  - intros self' g' w'. destruct (_last_watch_frame self) as [last|].
    + destruct (_ <=? _)%Z.
      * destruct (perform_check py_int get_distance_sqr g w)
          as [[g1 w1]|e]; [|discriminate].
        now intros [= <- _ _].
      * now intros [= <- _ _].
    + now intros [= <- _ _].
  - intros self' e. destruct (_last_watch_frame self) as [last|] eqn:Hlast.
    + destruct (_ <=? _)%Z.
      * destruct (perform_check py_int get_distance_sqr g w)
          as [[g1 w1]|e1]; [discriminate|].
        intros [= <- <-]. cbn [_last_watch_frame set_last_delta_frame].
        now rewrite Hlast.
      * discriminate.
    + discriminate.
Qed.

End PassProperties.

Lemma example_piles_config :
  piles_config Example.int_literal Example.globals 1 1.
Proof.
  exists "1", "1". repeat split; vm_compute; reflexivity.
Defined.

Lemma perform_check_handles_once_witness :
  piles_config Example.int_literal Example.globals 1 1
  /\ exists g' w' calls,
       perform_check_calls Example.int_literal Example.distance_sqr
         Example.globals Example.world = Ok (g', w', calls)
       /\ perform_check Example.int_literal Example.distance_sqr
            Example.globals Example.world = Ok (g', w')
       /\ NoDup (map call_index calls)
       /\ (forall i, i ∈ map call_index calls
                     <-> exists pile ref,
                           pile ∈ piles_of Example.distance_sqr
                                    Example.world 1 1
                           /\ (ref, i) ∈ pile)
       /\ Forall
            (fun c =>
               call_result c
               = rule_verdict (entity_actions Example.globals)
                   (classname (call_state c)))
            calls
       /\ total_checks_issued g' = total_checks_issued Example.globals + 1
       /\ total_handled_entities_count g'
          = total_handled_entities_count Example.globals
            + Z.of_nat (length (handled_calls calls)).
Proof.
  split; [exact example_piles_config|].
  exact (perform_check_handles_once Example.int_literal Example.distance_sqr
           Example.globals Example.world 1 1 example_piles_config).
Defined.

Lemma perform_check_calls_on_moving_witness :
  piles_config Example.int_literal Example.globals 1 1
  /\ exists g' w' calls,
       perform_check_calls Example.int_literal Example.distance_sqr
         Example.globals Example.world = Ok (g', w', calls)
       /\ Forall
            (fun c =>
               in_piles (piles_of Example.distance_sqr Example.world 1 1)
                 (call_entity c, call_index c)
               /\ call_state c = Example.world !!! call_entity c
               /\ is_static_entity (call_state c) = false
               /\ exists po,
                    physics_object (call_state c) = Some po
                    /\ motion_enabled po = true)
            calls.
Proof.
  split; [exact example_piles_config|].
  exact (perform_check_calls_on_moving Example.int_literal
           Example.distance_sqr Example.globals Example.world 1 1
           example_piles_config).
Defined.

Lemma watch_tick_outcome_witness :
  (* first tick *)
  _watch_state Example.int_literal Example.distance_sqr
    Example.fresh_watcher 1000 Example.globals Example.world
  = (set_last_watch_frame Example.fresh_watcher (Some 1000),
     Ok (Example.globals, Example.world))
  (* 200 frames since the last sample, threshold 126 *)
  /\ _watch_state Example.int_literal Example.distance_sqr Example.watcher
       1200 Example.globals Example.world
     = (set_last_watch_frame
          (set_last_delta_frame Example.watcher (Some (1200 - 1000)))
          (Some 1200), Ok (Example.globals, Example.world))
  (* 100 frames since the last sample: the pass runs and returns *)
  /\ (exists g' w',
        perform_check Example.int_literal Example.distance_sqr
          Example.globals Example.world = Ok (g', w')
        /\ total_checks_issued g' = total_checks_issued Example.globals + 1
        /\ _watch_state Example.int_literal Example.distance_sqr
             Example.watcher 1100 Example.globals Example.world
           = (set_last_watch_frame
                (set_last_delta_frame Example.watcher (Some (1100 - 1000)))
                (Some 1100), Ok (g', w')))
  (* 100 frames since the last sample: the pass raises *)
  /\ _watch_state Example.int_literal Example.distance_sqr Example.watcher
       1100 Example.broken_globals Example.world
     = (set_last_delta_frame Example.watcher (Some (1100 - 1000)),
        Raise KeyError).
Proof.
  split; [|split; [|split]].
  - apply (proj1 (watch_tick_outcome Example.int_literal
                    Example.distance_sqr Example.fresh_watcher 1000
                    Example.globals Example.world)).
    reflexivity.
  - apply (proj1 (proj2 (watch_tick_outcome Example.int_literal
                           Example.distance_sqr Example.watcher 1200
                           Example.globals Example.world)) 1000).
    + reflexivity.
    + cbn. lia.
  - destruct (proj1 (proj2 (proj2 (watch_tick_outcome Example.int_literal
                                     Example.distance_sqr Example.watcher
                                     1100 Example.globals Example.world)))
                1000 eq_refl ltac:(cbn; lia))
      as (Hreturns & _ & Hruns).
    destruct (Hruns 1 1 example_piles_config) as (g' & w' & Hpass).
    exists g', w'. split; [exact Hpass|]. exact (Hreturns g' w' Hpass).
  - destruct (proj1 (proj2 (proj2 (watch_tick_outcome Example.int_literal
                                     Example.distance_sqr Example.watcher
                                     1100 Example.broken_globals
                                     Example.world)))
                1000 eq_refl ltac:(cbn; lia))
      as (_ & Hraises & _).
    apply Hraises. vm_compute. reflexivity.
Defined.

(** C4, as stated, fails: the frame counter is not stored in every case.
    With a last sample at frame 1000, a threshold of 126 and a
    configuration without a [piles] section, the tick at frame 1100 runs
    the pass, which raises [KeyError]; the watcher is left with the delta
    of 100 and with frame 1000, not 1100, as its last sample. *)
Lemma watch_tick_stale_sample :
  ~ (_last_watch_frame
       (_watch_state Example.int_literal Example.distance_sqr
          Example.watcher 1100 Example.broken_globals Example.world).1
     = Some 1100)
  /\ _watch_state Example.int_literal Example.distance_sqr Example.watcher
       1100 Example.broken_globals Example.world
     = ({| _repeat := Running 2.0%float;
           _last_watch_frame := Some 1000;
           _last_delta_frame := Some 100;
           _min_frames_per_interval := 126 |}, Raise KeyError)
  /\ _watch Example.int_literal Example.distance_sqr Example.watcher
       1100 Example.broken_globals Example.world
     = Raise KeyError.
Proof.
  assert (Hrun : _watch_state Example.int_literal Example.distance_sqr
                   Example.watcher 1100 Example.broken_globals Example.world
                 = ({| _repeat := Running 2.0%float;
                       _last_watch_frame := Some 1000;
                       _last_delta_frame := Some 100;
                       _min_frames_per_interval := 126 |}, Raise KeyError))
    by (vm_compute; reflexivity).
  split; [|split].
  - rewrite Hrun. cbn. discriminate.
  - exact Hrun.
  - vm_compute. reflexivity.
Qed.

(** ** Reloading the configuration *)

Section Reload.

Variable ENT_ANTISPAM_CFG_PATH : string.

(** C2, as the code has it.  A reload assigns the two globals one after
    the other and undoes nothing.  The configuration is in every case
    replaced by what the parser read (an empty parser when the file is
    missing).  The rule list is replaced exactly when neither the parser
    nor the JSON loader raised, and then the call returns; otherwise the
    call raises and the previous rule list stays.  The counters are not
    touched. *)
Theorem reload_configs_outcome (fs : FileSystem) (g : Globals) :
  let ini :=
    get_server_file fs (cfg_file ENT_ANTISPAM_CFG_PATH "config" ".ini") in
  let json :=
    get_server_file fs
      (cfg_file ENT_ANTISPAM_CFG_PATH "entity_actions" ".json") in
  let after := (reload_configs ENT_ANTISPAM_CFG_PATH fs g).1 in
  let outcome := (reload_configs ENT_ANTISPAM_CFG_PATH fs g).2 in
  config after = (config_read fs ini).1
  /\ total_checks_issued after = total_checks_issued g
  /\ total_handled_entities_count after = total_handled_entities_count g
  /\ (forall rules,
        (config_read fs ini).2 = None ->
        json_load fs json = Ok rules ->
        outcome = Ok tt /\ entity_actions after = rules)
  /\ (forall e,
        (config_read fs ini).2 = Some e ->
        outcome = Raise e /\ entity_actions after = entity_actions g)
  /\ (forall e,
        (config_read fs ini).2 = None ->
        json_load fs json = Raise e ->
        outcome = Raise e /\ entity_actions after = entity_actions g).
Proof.
  cbv zeta. unfold reload_configs.
  destruct (config_read fs _) as [parser [e|]];
    [|destruct (json_load fs _) as [rules|e]]; cbn [fst snd];
    repeat apply conj; try reflexivity.
  all: intros; try discriminate; split; cbn; congruence.
Qed.

End Reload.

Lemma reload_configs_outcome_witness :
  reload_configs "cfg" Example.good_files Example.globals
  = ({| config := Example.new_parser;
        entity_actions := Example.stop_rules;
        total_handled_entities_count := 0;
        total_checks_issued := 0 |}, Ok tt)
  /\ (reload_configs "cfg" Example.bad_rules_files Example.globals).2
     = Raise JSONDecodeError
  /\ entity_actions
       (reload_configs "cfg" Example.bad_rules_files Example.globals).1
     = Example.rules.
Proof.
  split; [reflexivity|].
  apply (proj2 (proj2 (proj2 (proj2 (proj2
           (reload_configs_outcome "cfg" Example.bad_rules_files
              Example.globals))))) JSONDecodeError);
    reflexivity.
Defined.

(** C2, as stated, fails: with a well-formed configuration file and a rule
    list that is not valid JSON the reload raises, and leaves the new
    configuration next to the previous rules. *)
Lemma reload_configs_not_atomic :
  ~ reload_atomic "cfg" Example.bad_rules_files Example.globals
  /\ (reload_configs "cfg" Example.bad_rules_files Example.globals).2
     = Raise JSONDecodeError
  /\ config (reload_configs "cfg" Example.bad_rules_files Example.globals).1
     = Example.new_parser
  /\ entity_actions
       (reload_configs "cfg" Example.bad_rules_files Example.globals).1
     = entity_actions Example.globals.
Proof.
  split; [|repeat split].
  unfold reload_atomic. cbn. intros [Hcfg _].
  apply (f_equal (fun m => m !! "piles" ≫= fun sec => sec !! "pile_radius"))
    in Hcfg.
  vm_compute in Hcfg. discriminate Hcfg.
Qed.

(** ** The automatic threshold *)

Lemma to_int_floor (x : float) :
  PyFloat.is_finite_nonneg x = true -> PyFloat.to_int x = Ok (PyFloat.floor x).
Proof.
  unfold PyFloat.is_finite_nonneg, PyFloat.to_int, PyFloat.floor.
  destruct (Prim2SF x) as [s | s | | s m e]; try discriminate; [reflexivity|].
  destruct s; [discriminate|]. intros _. f_equal.
  apply Z.quot_div_nonneg.
  - unfold PyFloat.numerator, PyFloat.signed.
    apply Z.mul_nonneg_nonneg; [lia | apply Z.pow_nonneg; lia].
  - unfold PyFloat.denominator. apply Z.pow_pos_nonneg; lia.
Qed.

Section Threshold.

Variable py_int : string -> res Z.
Variable py_float : string -> res float.

(** C7.  When [min_frames_per_interval] is "auto" in any capitalisation,
    the interval is read as the float [interval], the tick duration is not
    zero and [interval / interval_per_tick * 0.95], computed in binary64,
    is finite and not negative, then the threshold is the floor of that
    product.  For an interval of 2.0 and a tick duration of 0.015 the
    threshold is 126. *)
Theorem auto_threshold :
  (forall (g : Globals) (interval_per_tick : float) (value raw : string)
          (interval : float),
      config_get (config g) "frame_measurement" "min_frames_per_interval"
      = Ok value ->
      PyStr.lower value = "auto" ->
      config_get (config g) "frame_measurement" "interval" = Ok raw ->
      py_float raw = Ok interval ->
      PrimFloat.is_zero interval_per_tick = false ->
      PyFloat.is_finite_nonneg
        (PrimFloat.mul (PrimFloat.div interval interval_per_tick)
           MIN_TICKS_PER_INTERVAL_AUTO_MULTIPLIER) = true ->
      get_min_frames_per_interval py_int py_float g interval_per_tick
      = Ok (PyFloat.floor
              (PrimFloat.mul (PrimFloat.div interval interval_per_tick)
                 MIN_TICKS_PER_INTERVAL_AUTO_MULTIPLIER)))
  /\ (py_float "2.0" = Ok 2.0%float ->
      get_min_frames_per_interval py_int py_float Example.globals
        0.015%float = Ok 126).
Proof.
  assert (Hgen : forall g interval_per_tick value raw interval,
    config_get (config g) "frame_measurement" "min_frames_per_interval"
    = Ok value ->
    PyStr.lower value = "auto" ->
    config_get (config g) "frame_measurement" "interval" = Ok raw ->
    py_float raw = Ok interval ->
    PrimFloat.is_zero interval_per_tick = false ->
    PyFloat.is_finite_nonneg
      (PrimFloat.mul (PrimFloat.div interval interval_per_tick)
         MIN_TICKS_PER_INTERVAL_AUTO_MULTIPLIER) = true ->
    get_min_frames_per_interval py_int py_float g interval_per_tick
    = Ok (PyFloat.floor
            (PrimFloat.mul (PrimFloat.div interval interval_per_tick)
               MIN_TICKS_PER_INTERVAL_AUTO_MULTIPLIER))).
  { intros g interval_per_tick value raw interval
      Hvalue Hauto Hraw Hfloat Hzero Hfin.
    unfold get_min_frames_per_interval.
    rewrite Hvalue; cbn [bind]. rewrite Hauto, String.eqb_refl.
    rewrite Hraw; cbn [bind]. rewrite Hfloat; cbn [bind].
    unfold PyFloat.truediv. rewrite Hzero; cbn [bind].
    now apply to_int_floor. }
  split; [exact Hgen|].
  intros Hparse.
  rewrite (Hgen Example.globals 0.015%float "Auto" "2.0" 2.0%float);
    try exact Hparse; vm_compute; reflexivity.
Qed.

End Threshold.

Lemma auto_threshold_witness :
  Example.float_literal "2.0" = Ok 2.0%float
  /\ get_min_frames_per_interval Example.int_literal Example.float_literal
       Example.globals 0.015%float = Ok 126
  /\ get_min_frames_per_interval Example.int_literal Example.float_literal
       Example.globals 0.014999999664723873%float = Ok 126.
Proof.
  split; [reflexivity|]. split.
  - apply (proj2 (auto_threshold Example.int_literal Example.float_literal)).
    reflexivity.
  - refine (eq_trans
              (proj1 (auto_threshold Example.int_literal
                        Example.float_literal)
                 Example.globals 0.014999999664723873%float "Auto" "2.0"
                 2.0%float _ _ _ _ _ _) _);
      vm_compute; reflexivity.
Defined.

(** * Further properties of the code *)

(** ** More on strings *)

Lemma length_app_star (p : string) :
  String.length (p ++ "*") = S (String.length p).
Proof. induction p as [|c p IH]; simpl; [reflexivity | now f_equal]. Qed.

Lemma substring_app_star (p : string) :
  substring (String.length p) 1 (p ++ "*") = "*".
Proof. induction p as [|c p IH]; simpl; [reflexivity | exact IH]. Qed.

Lemma endswith_star (p : string) : PyStr.endswith (p ++ "*") "*" = true.
Proof.
  unfold PyStr.endswith. rewrite length_app_star. cbn [String.length].
  replace (S (String.length p) - 1)%nat with (String.length p) by lia.
  rewrite substring_app_star. reflexivity.
Qed.

Lemma drop_last_star (p : string) : PyStr.drop_last (p ++ "*") = p.
Proof.
  unfold PyStr.drop_last. rewrite length_app_star.
  replace (S (String.length p) - 1)%nat with (String.length p) by lia.
  induction p as [|c p IH]; simpl; [reflexivity | now f_equal].
Qed.

Lemma prefix_app (p s : string) :
  String.prefix p s = true <-> exists suffix, s = p ++ suffix.
Proof.
  revert s. induction p as [|c p IH]; intros [|d s]; simpl.
  - split; [intros _; now exists EmptyString | reflexivity].
  - split; [intros _; now exists (String d s) | reflexivity].
  - split; [discriminate | now intros [x Hx]].
  - destruct (ascii_dec c d) as [<- | Hne].
    + rewrite IH. split; intros [x Hx]; exists x.
      * rewrite Hx. reflexivity.
      * change (String c s = String c (p ++ x)) in Hx. now injection Hx.
    + split; [discriminate|]. intros [x Hx].
      change (String d s = String c (p ++ x)) in Hx. congruence.
Qed.

(** ** More on the rule engine *)

Lemma handle_entity_at_first_match (pre post : list Rule) (rule : Rule)
    (w : World) (entity : EntityRef) :
  Forall (fun r => ~ rule_matches r (classname (w !!! entity))) pre ->
  rule_matches rule (classname (w !!! entity)) ->
  handle_entity (pre ++ rule :: post) w entity = apply_rule rule w entity.
Proof.
  intros Hpre Hrule. unfold handle_entity.
  rewrite loop_skips_prefix by exact Hpre.
  now apply loop_step_matches.
Qed.

(** X1. When no rule matches the classname of the entity (in particular
    when there are no rules) the rule engine answers "not handled" and
    leaves the world as it was. *)
Theorem handle_entity_no_match (rules : list Rule) (w : World)
    (entity : EntityRef) :
  Forall (fun r => ~ rule_matches r (classname (w !!! entity))) rules ->
  handle_entity rules w entity = Ok (w, false).
Proof.
  intros Hno. unfold handle_entity.
  rewrite <- (app_nil_r rules). now rewrite loop_skips_prefix.
Qed.

Lemma handle_entity_no_match_witness :
  handle_entity Example.rules Example.world 2 = Ok (Example.world, false)
  /\ handle_entity [] Example.world 0 = Ok (Example.world, false).
Proof.
  split.
  - apply handle_entity_no_match.
    refine (bool_decide_unpack _ _). vm_compute. exact I.
  - apply handle_entity_no_match. constructor.
Defined.

(** X2. When the first rule that matches asks for "remove", the entity is
    marked as removed whether or not it has a physics object, the answer is
    "handled", and every other entity is as it was. *)
Theorem handle_entity_remove (pre post : list Rule) (rule : Rule)
    (w : World) (entity : EntityRef) :
  Forall (fun r => ~ rule_matches r (classname (w !!! entity))) pre ->
  rule_matches rule (classname (w !!! entity)) ->
  rule_action rule = "remove" ->
  exists w',
    handle_entity (pre ++ rule :: post) w entity = Ok (w', true)
    /\ (entity < length w -> w' !!! entity = remove (w !!! entity))%nat
    /\ (forall ref, ref <> entity -> w' !!! ref = w !!! ref)
    /\ length w' = length w.
Proof.
  intros Hpre Hrule Hact.
  rewrite handle_entity_at_first_match by assumption.
  unfold apply_rule. rewrite Hact. cbn [String.eqb Ascii.eqb Bool.eqb].
  eexists. split; [reflexivity|]. split; [|split].
  - intros Hlt. now apply list_lookup_total_insert_eq.
  - intros ref Hne. now apply list_lookup_total_insert_ne.
  - apply length_insert.
Qed.

Lemma handle_entity_remove_witness :
  exists w',
    handle_entity Example.rules Example.world 1 = Ok (w', true)
    /\ (1 < length Example.world
        -> w' !!! 1%nat = remove (Example.world !!! 1%nat))%nat
    /\ (forall ref, ref <> 1%nat -> w' !!! ref = Example.world !!! ref)
    /\ length w' = length Example.world.
Proof.
  apply (handle_entity_remove []
           [{| rule_classname := "AB"; rule_action := "freeze" |}]
           {| rule_classname := "A*"; rule_action := "remove" |}
           Example.world 1).
  - constructor.
  - right. split; reflexivity.
  - reflexivity.
Defined.

(** X3. When the first rule that matches asks for "freeze": on an entity
    without a physics object the rule engine raises [AttributeError]; on an
    entity with one it disables its motion and answers "handled", after
    which the entity counts as static, and every other entity is as it
    was. *)
Theorem handle_entity_freeze (pre post : list Rule) (rule : Rule)
    (w : World) (entity : EntityRef) :
  Forall (fun r => ~ rule_matches r (classname (w !!! entity))) pre ->
  rule_matches rule (classname (w !!! entity)) ->
  rule_action rule = "freeze" ->
  match physics_object (w !!! entity) with
  | None => handle_entity (pre ++ rule :: post) w entity = Raise AttributeError
  | Some po =>
      exists w',
        handle_entity (pre ++ rule :: post) w entity = Ok (w', true)
        /\ ((entity < length w)%nat ->
            physics_object (w' !!! entity) = Some (disable_motion po)
            /\ is_static_entity (w' !!! entity) = true
            /\ removed (w' !!! entity) = removed (w !!! entity))
        /\ (forall ref, ref <> entity -> w' !!! ref = w !!! ref)
  end.
Proof.
  intros Hpre Hrule Hact.
  rewrite handle_entity_at_first_match by assumption.
  unfold apply_rule. rewrite Hact. cbn [String.eqb Ascii.eqb Bool.eqb].
  destruct (physics_object (w !!! entity)) as [po|] eqn:Hpo; [|reflexivity].
  eexists. split; [reflexivity|]. split.
  - intros Hlt. rewrite list_lookup_total_insert_eq by exact Hlt.
    unfold is_static_entity. cbn. rewrite !orb_true_r. now repeat split.
  - intros ref Hne. now apply list_lookup_total_insert_ne.
Qed.

Lemma handle_entity_freeze_witness :
  handle_entity Example.freeze_rules Example.static_world 0
  = Raise AttributeError
  /\ exists w',
       handle_entity Example.freeze_rules Example.world 2 = Ok (w', true)
       /\ ((2 < length Example.world)%nat ->
           physics_object (w' !!! 2%nat)
           = Some (disable_motion Example.moving)
           /\ is_static_entity (w' !!! 2%nat) = true
           /\ removed (w' !!! 2%nat) = removed (Example.world !!! 2%nat))
       /\ (forall ref, ref <> 2%nat -> w' !!! ref = Example.world !!! ref).
Proof.
  split.
  - apply (handle_entity_freeze
             [{| rule_classname := "prop_*"; rule_action := "remove" |}] []
             {| rule_classname := "*"; rule_action := "freeze" |}
             Example.static_world 0).
    + refine (bool_decide_unpack _ _). vm_compute. exact I.
    + right. split; reflexivity.
    + reflexivity.
  - apply (handle_entity_freeze
             [{| rule_classname := "prop_*"; rule_action := "remove" |}] []
             {| rule_classname := "*"; rule_action := "freeze" |}
             Example.world 2).
    + refine (bool_decide_unpack _ _). vm_compute. exact I.
    + right. split; reflexivity.
    + reflexivity.
Defined.

(** X4. A rule whose pattern is [p] followed by the wildcard marker is
    applied to exactly the classnames that start with [p], the bare [p]
    included; on every other classname the loop goes on with the rules
    that follow.  The pattern that is the marker alone is applied to every
    classname. *)
Theorem wildcard_rule_prefix (p action : string) (rest : list Rule)
    (w : World) (entity : EntityRef) :
  ((exists suffix, classname (w !!! entity) = p ++ suffix) ->
   handle_entity
     ({| rule_classname := p ++ "*"; rule_action := action |} :: rest)
     w entity
   = apply_rule {| rule_classname := p ++ "*"; rule_action := action |}
       w entity)
  /\ ((~ exists suffix, classname (w !!! entity) = p ++ suffix) ->
      handle_entity
        ({| rule_classname := p ++ "*"; rule_action := action |} :: rest)
        w entity
      = handle_entity rest w entity)
  /\ handle_entity ({| rule_classname := "*"; rule_action := action |} :: rest)
       w entity
     = apply_rule {| rule_classname := "*"; rule_action := action |} w entity.
Proof.
  assert (Hstep : forall q,
    handle_entity ({| rule_classname := q ++ "*"; rule_action := action |}
                     :: rest) w entity
    = if String.prefix q (classname (w !!! entity))
      then apply_rule {| rule_classname := q ++ "*"; rule_action := action |}
             w entity
      else handle_entity rest w entity).
  { intros q. unfold handle_entity.
    cbn [handle_entity_loop rule_classname].
    rewrite endswith_star, drop_last_star. unfold PyStr.startswith.
    now destruct (String.prefix q _). }
  split; [|split].
  - intros Hpre. rewrite Hstep.
    now rewrite (proj2 (prefix_app p _) Hpre).
  - intros Hno. rewrite Hstep.
    destruct (String.prefix p _) eqn:Hp; [|reflexivity].
    exfalso. apply Hno. now apply prefix_app.
  - change "*" with (EmptyString ++ "*") at 1 2. rewrite Hstep.
    now destruct (classname (w !!! entity)).
Qed.

Lemma wildcard_rule_prefix_witness :
  handle_entity
    ({| rule_classname := "AB*"; rule_action := "remove" |} :: Example.rules)
    Example.world 1
  = apply_rule {| rule_classname := "AB*"; rule_action := "remove" |}
      Example.world 1
  /\ handle_entity
       ({| rule_classname := "AB*"; rule_action := "remove" |}
          :: Example.rules)
       Example.world 2
     = handle_entity Example.rules Example.world 2.
Proof.
  split.
  - apply (proj1 (wildcard_rule_prefix "AB" "remove" Example.rules
                    Example.world 1)).
    now exists EmptyString.
  - apply (proj1 (proj2 (wildcard_rule_prefix "AB" "remove" Example.rules
                           Example.world 2))).
    intros [suffix H]. discriminate H.
Defined.

(** ** More on the pile detector *)

Section PileDetectorBounds.

Variable get_distance_sqr : Vector -> Vector -> Q.

Lemma scan_pile_length (w : World) (o : Vector) (r2 : Z)
    (S : list (EntityRef * Z * Vector)) :
  (length (scan_pile get_distance_sqr w o r2 S) <= length S)%nat.
Proof.
  induction S as [|[[entity idx] pos] S IH]; cbn [scan_pile length]; [lia|].
  destruct (negb _); [lia|].
  destruct (is_static_entity _); cbn [length]; lia.
Qed.

(** X5. Step 2 emits at most one pile per anchor, and no pile has more
    members than the snapshot has entries. *)
Theorem detect_piles_bounds (w : World) (r2 max_size : Z)
    (S anchors : list (EntityRef * Z * Vector)) :
  (length (detect_piles get_distance_sqr w r2 max_size S anchors)
   <= length anchors)%nat
  /\ Forall (fun pile => (length pile <= length S)%nat)
       (detect_piles get_distance_sqr w r2 max_size S anchors).
Proof.
  induction anchors as [|[[e i] o] anchors [IHlen IHall]];
    cbn [detect_piles length]; [split; [lia | constructor]|].
  destruct (_ >? _).
  - split; [cbn [length]; lia|].
    constructor; [apply scan_pile_length | exact IHall].
  - split; [lia | exact IHall].
Qed.

Lemma scan_pile_radius_mono (w : World) (o : Vector) (a b : Z)
    (S : list (EntityRef * Z * Vector)) :
  a <= b ->
  scan_pile get_distance_sqr w o a S
    `sublist_of` scan_pile get_distance_sqr w o b S.
Proof.
  intros Hab.
  induction S as [|[[entity idx] pos] S IH]; cbn [scan_pile]; [constructor|].
  destruct (Qle_bool (get_distance_sqr o pos) (inject_Z a)) eqn:Ha;
    cbn [negb].
  - assert (Hb : Qle_bool (get_distance_sqr o pos) (inject_Z b) = true).
    { apply Qle_bool_iff. apply Qle_bool_iff in Ha.
      eapply Qle_trans; [exact Ha|]. now rewrite <- Zle_Qle. }
    rewrite Hb. cbn [negb].
    destruct (is_static_entity _); [exact IH | now apply sublist_skip].
  - destruct (negb _); [exact IH|].
    destruct (is_static_entity _); [exact IH | now apply sublist_cons].
Qed.

Lemma detect_piles_radius_mono (w : World) (a b max_size : Z)
    (S anchors : list (EntityRef * Z * Vector)) :
  a <= b ->
  (length (detect_piles get_distance_sqr w a max_size S anchors)
   <= length (detect_piles get_distance_sqr w b max_size S anchors))%nat.
Proof.
  intros Hab.
  induction anchors as [|[[e i] o] anchors IH]; cbn [detect_piles]; [lia|].
  pose proof (sublist_length _ _
                (scan_pile_radius_mono w o a b S Hab)) as Hlen.
  destruct (Z.gtb_spec
              (Z.of_nat (length (scan_pile get_distance_sqr w o a S)))
              max_size) as [Ha | Ha];
    destruct (Z.gtb_spec
                (Z.of_nat (length (scan_pile get_distance_sqr w o b S)))
                max_size) as [Hb | Hb]; cbn [length]; lia.
Qed.

(** X6. The piles depend on the configured radius only through its
    absolute value, negative radii included.  With a radius that is at
    least as large in absolute value, the pile around every anchor keeps
    all its members, in order, and at least as many piles are emitted. *)
Theorem piles_radius (w : World) (max_size r1 r2 : Z) :
  piles_of get_distance_sqr w max_size r1
  = piles_of get_distance_sqr w max_size (Z.abs r1)
  /\ (Z.abs r1 <= Z.abs r2 ->
      (forall o S,
          scan_pile get_distance_sqr w o (r1 ^ 2) S
            `sublist_of` scan_pile get_distance_sqr w o (r2 ^ 2) S)
      /\ (length (piles_of get_distance_sqr w max_size r1)
          <= length (piles_of get_distance_sqr w max_size r2))%nat).
Proof.
  split.
  - unfold piles_of. now rewrite <- Z.abs_pow, Z.abs_eq by (apply Z.pow_even_nonneg; now exists 1).
  - intros Habs.
    assert (Hsq : r1 ^ 2 <= r2 ^ 2).
    { rewrite <- (Z.abs_eq (r1 ^ 2)), <- (Z.abs_eq (r2 ^ 2))
        by (apply Z.pow_even_nonneg; now exists 1).
      rewrite !Z.abs_pow. apply Z.pow_le_mono_l. lia. }
    split.
    + intros o S. now apply scan_pile_radius_mono.
    + unfold piles_of. now apply detect_piles_radius_mono.
Qed.

(** X7. Raising the threshold never adds a pile: the piles emitted for a
    larger [max_entities_per_pile] are among those emitted for a smaller
    one, in the same order. *)
Theorem detect_piles_threshold_mono (w : World) (r2 max1 max2 : Z)
    (S anchors : list (EntityRef * Z * Vector)) :
  max1 <= max2 ->
  detect_piles get_distance_sqr w r2 max2 S anchors
    `sublist_of` detect_piles get_distance_sqr w r2 max1 S anchors.
Proof.
  intros Hle.
  induction anchors as [|[[e i] o] anchors IH]; cbn [detect_piles];
    [constructor|].
  destruct (Z.gtb_spec
              (Z.of_nat (length (scan_pile get_distance_sqr w o r2 S)))
              max2) as [H2 | H2];
    destruct (Z.gtb_spec
                (Z.of_nat (length (scan_pile get_distance_sqr w o r2 S)))
                max1) as [H1 | H1]; try lia.
  - now apply sublist_skip.
  - now apply sublist_cons.
  - exact IH.
Qed.

(** X8. With a negative threshold every anchor emits its pile, empty piles
    included: there are as many piles as anchors. *)
Theorem detect_piles_negative_threshold (w : World) (r2 max_size : Z)
    (S anchors : list (EntityRef * Z * Vector)) :
  max_size < 0 ->
  detect_piles get_distance_sqr w r2 max_size S anchors
  = map (fun anchor => scan_pile get_distance_sqr w anchor.2 r2 S) anchors.
Proof.
  intros Hneg.
  induction anchors as [|[[e i] o] anchors IH]; cbn [detect_piles map];
    [reflexivity|].
  rewrite (proj2 (Z.gtb_lt _ _)) by lia. now rewrite IH.
Qed.

End PileDetectorBounds.

Lemma piles_radius_witness :
  (forall o S,
      scan_pile Example.distance_sqr Example.world o ((-1) ^ 2) S
        `sublist_of` scan_pile Example.distance_sqr Example.world o (2 ^ 2) S)
  /\ (length (piles_of Example.distance_sqr Example.world 1 (-1))
      <= length (piles_of Example.distance_sqr Example.world 1 2))%nat.
Proof.
  apply (proj2 (piles_radius Example.distance_sqr Example.world 1 (-1) 2)).
  cbn. lia.
Defined.

Lemma detect_piles_threshold_mono_witness :
  detect_piles Example.distance_sqr Example.world 1 2
    (collect_entities Example.world) (collect_entities Example.world)
    `sublist_of`
  detect_piles Example.distance_sqr Example.world 1 1
    (collect_entities Example.world) (collect_entities Example.world).
Proof.
  apply detect_piles_threshold_mono. lia.
Defined.

Lemma detect_piles_negative_threshold_witness :
  detect_piles Example.distance_sqr Example.static_world 1 (-1)
    (collect_entities Example.static_world)
    (collect_entities Example.static_world)
  = [[]; []].
Proof.
  rewrite detect_piles_negative_threshold by lia. reflexivity.
Defined.

(** ** More on the mitigation pass *)

(** An invariant of the inner loop of step 3 holds when the loop returns,
    if every call of the rule engine that returns keeps it. *)
Lemma clear_pile_invariant (I : ClearState -> Prop) (rules : list Rule)
    (pile : list (EntityRef * Z)) :
  (forall st entity idx w' handled,
      I st -> (entity, idx) ∈ pile -> idx ∉ handled_indexes st ->
      handle_entity rules (cs_world st) entity = Ok (w', handled) ->
      I (call_made st entity idx w' handled)) ->
  forall st st', I st -> clear_pile rules pile st = Ok st' -> I st'.
Proof.
  induction pile as [|[entity idx] pile IH]; intros Hstep st st' HI Hrun.
  - cbn in Hrun. now injection Hrun as <-.
  - cbn [clear_pile] in Hrun.
    assert (Hstep' : forall st entity idx w' handled,
               I st -> (entity, idx) ∈ pile -> idx ∉ handled_indexes st ->
               handle_entity rules (cs_world st) entity = Ok (w', handled) ->
               I (call_made st entity idx w' handled))
      by (intros; apply Hstep; try assumption; now right).
    case_bool_decide as Hseen; [now apply (IH Hstep' st)|].
    destruct (handle_entity rules (cs_world st) entity)
      as [[w' handled]|e] eqn:Hcall; cbn [bind] in Hrun; [|discriminate].
    apply (IH Hstep' (call_made st entity idx w' handled)); [|exact Hrun].
    apply Hstep; try assumption. now left.
Qed.

Lemma clear_piles_invariant (I : ClearState -> Prop) (rules : list Rule)
    (piles : list (list (EntityRef * Z))) :
  (forall st entity idx w' handled,
      I st -> in_piles piles (entity, idx) -> idx ∉ handled_indexes st ->
      handle_entity rules (cs_world st) entity = Ok (w', handled) ->
      I (call_made st entity idx w' handled)) ->
  forall st st', I st -> clear_piles rules piles st = Ok st' -> I st'.
Proof.
  induction piles as [|pile piles IH]; intros Hstep st st' HI Hrun.
  - cbn in Hrun. now injection Hrun as <-.
  - cbn [clear_piles] in Hrun.
    destruct (clear_pile rules pile st) as [st1|e] eqn:Hpile;
      cbn [bind] in Hrun; [|discriminate].
    apply (IH) with (st := st1); [| |exact Hrun].
    + intros st0 entity idx w' handled HI0 [p [Hp Hm]] Hfresh Hcall.
      apply Hstep; try assumption. exists p. split; [now right | exact Hm].
    + apply (clear_pile_invariant I rules pile) with (st := st);
        [|exact HI|exact Hpile].
      intros st0 entity idx w' handled HI0 Hm Hfresh Hcall.
      apply Hstep; try assumption. exists pile. split; [now left | exact Hm].
Qed.

(** What a call of the rule engine that returns does to the world. *)
Lemma handle_entity_returns (rules : list Rule) (w w' : World)
    (entity : EntityRef) (handled : bool) :
  handle_entity rules w entity = Ok (w', handled) ->
  length w' = length w
  /\ (forall ref, ref <> entity -> w' !!! ref = w !!! ref)
  /\ ((entity < length w)%nat ->
      w' !!! entity = entity_after rules (w !!! entity))
  /\ handled = rule_verdict rules (classname (w !!! entity)).
Proof.
  unfold handle_entity, entity_after, rule_verdict.
  rewrite handle_entity_find.
  destruct (List.find _ rules) as [rule|].
  - unfold apply_rule.
    destruct (String.eqb (rule_action rule) "remove").
    + intros [= <- <-]. split; [apply length_insert|]. split; [|split].
      * intros ref Hne. now apply list_lookup_total_insert_ne.
      * intros Hlt. now apply list_lookup_total_insert_eq.
      * reflexivity.
    + destruct (String.eqb (rule_action rule) "freeze").
      * destruct (physics_object (w !!! entity)) as [po|]; [|discriminate].
        intros [= <- <-]. split; [apply length_insert|]. split; [|split].
        -- intros ref Hne. now apply list_lookup_total_insert_ne.
        -- intros Hlt. now apply list_lookup_total_insert_eq.
        -- reflexivity.
      * intros [= <- <-]. repeat split.
  - intros [= <- <-]. repeat split.
Qed.

Lemma pile_entities_member (piles : list (list (EntityRef * Z)))
    (entity : EntityRef) (idx : Z) :
  in_piles piles (entity, idx) -> entity ∈ pile_entities piles.
Proof.
  intros (pile & Hpile & Hm). unfold pile_entities.
  induction piles as [|p piles IH]; [now apply elem_of_nil in Hpile|].
  cbn [map concat]. apply elem_of_app.
  apply elem_of_cons in Hpile as [<- | Hpile]; [left | right; now apply IH].
  apply list_elem_of_In, in_map_iff. exists (entity, idx).
  split; [reflexivity | now apply list_elem_of_In].
Qed.

Section PassEffect.

Variable py_int : string -> res Z.
Variable get_distance_sqr : Vector -> Vector -> Q.

Lemma scan_pile_refs (w : World) (o : Vector) (r2 : Z)
    (S : list (EntityRef * Z * Vector)) :
  Forall (fun m => m.1 ∈ map (fun b => b.1.1) S)
    (scan_pile get_distance_sqr w o r2 S).
Proof.
  induction S as [|[[entity idx] pos] S IH]; cbn [scan_pile map];
    [constructor|].
  assert (IH' : Forall (fun m => m.1 ∈ entity :: map (fun b => b.1.1) S)
                  (scan_pile get_distance_sqr w o r2 S))
    by (eapply Forall_impl; [exact IH|]; intros m Hm; now right).
  destruct (negb _); [exact IH'|].
  destruct (is_static_entity _); [exact IH'|].
  constructor; [now left | exact IH'].
Qed.

Lemma collect_entities_refs (w : World) :
  map (fun b => b.1.1) (collect_entities w) = seq 0 (length w).
Proof.
  unfold collect_entities, EntityIter. rewrite map_map. apply map_id.
Qed.

Lemma detect_piles_refs (w : World) (r2 max_size : Z)
    (S anchors : list (EntityRef * Z * Vector)) :
  Forall (Forall (fun m => m.1 ∈ map (fun b => b.1.1) S))
    (detect_piles get_distance_sqr w r2 max_size S anchors).
Proof.
  induction anchors as [|[[e i] o] anchors IH]; cbn [detect_piles];
    [constructor|].
  destruct (_ >? _); [|exact IH].
  constructor; [apply scan_pile_refs | exact IH].
Qed.

(** A member of a pile of the pass is a moving entity of the world. *)
Lemma piles_of_member (w : World) (max_size pile_radius : Z)
    (m : EntityRef * Z) :
  in_piles (piles_of get_distance_sqr w max_size pile_radius) m ->
  pile_member w m /\ (m.1 < length w)%nat.
Proof.
  intros (pile & Hpile & Hm). unfold piles_of in Hpile. split.
  - pose proof (detect_piles_members get_distance_sqr w (pile_radius ^ 2)
                  max_size (collect_entities w) (collect_entities w))
      as Hall.
    rewrite Forall_forall in Hall. destruct (Hall pile Hpile) as [_ Hmem].
    rewrite Forall_forall in Hmem. now apply Hmem.
  - pose proof (detect_piles_refs w (pile_radius ^ 2) max_size
                  (collect_entities w) (collect_entities w)) as Hall.
    rewrite Forall_forall in Hall. specialize (Hall pile Hpile).
    rewrite Forall_forall in Hall. specialize (Hall m Hm).
    rewrite collect_entities_refs in Hall.
    apply elem_of_seq in Hall. lia.
Qed.

(** The loop of step 3 over the piles of the pass keeps the two
    invariants. *)
Lemma clear_piles_effect (rules : list Rule) (w : World)
    (max_size pile_radius : Z) :
  exists st,
    clear_piles rules (piles_of get_distance_sqr w max_size pile_radius)
      (clear_start w) = Ok st
    /\ clear_inv (in_piles (piles_of get_distance_sqr w max_size pile_radius))
         rules w st
    /\ world_effect rules w st.
Proof.
  set (piles := piles_of get_distance_sqr w max_size pile_radius).
  destruct (clear_piles_inv (in_piles piles) rules w piles (clear_start w))
    as (st & Hrun & Hinv & _).
  - apply clear_inv_start.
  - apply Forall_forall. intros pile Hpile.
    apply Forall_forall. intros m Hm.
    assert (Hin : in_piles piles m) by (exists pile; now split).
    split; [exact Hin | now apply piles_of_member in Hin].
  - exists st. split; [exact Hrun|].
    apply (clear_piles_invariant
             (fun st => clear_inv (in_piles piles) rules w st
                        /\ world_effect rules w st)
             rules piles) with (st := clear_start w); [| |exact Hrun].
    + clear st Hrun Hinv.
      intros st entity idx w' handled [Hinv Heff] Hin Hfresh Hcall.
      destruct (piles_of_member w max_size pile_radius _ Hin)
        as [Hmem Hvalid]. cbn [fst] in Hvalid.
      destruct (clear_inv_step (in_piles piles) rules w st entity idx
                  Hinv (conj Hin Hmem) Hfresh)
        as (w1 & h1 & Hcall1 & Hinv1).
      rewrite Hcall in Hcall1. injection Hcall1 as <- <-.
      split; [exact Hinv1|].
      destruct Heff as [Hlen Hun Hcalled].
      destruct (handle_entity_returns _ _ _ _ _ Hcall)
        as (Hlen' & Hframe & Hat & _).
      destruct Hinv as [_ Hh _ _ Hcalls].
      destruct Hmem as [_ Hidx]. cbn [fst snd] in Hidx.
      split; cbn [call_made cs_world cs_calls].
      * now rewrite Hlen'.
      * intros ref Hnot. rewrite map_app in Hnot.
        apply not_elem_of_app in Hnot as [Hold Hnew].
        rewrite Hframe; [now apply Hun|].
        intros ->. apply Hnew. now left.
      * apply Forall_app. split.
        -- rewrite Forall_forall in Hcalled, Hcalls |- *.
           intros c Hc. rewrite Hframe; [now apply Hcalled|].
           intros Heq. apply Hfresh. rewrite Hh.
           destruct (Hcalls c Hc) as (_ & [_ Hci] & _).
           cbn [fst snd] in Hci.
           apply list_elem_of_In, in_map_iff. exists c.
           split; [|now apply list_elem_of_In]. congruence.
        -- constructor; [|constructor]. cbn [call_entity call_state].
           apply Hat. now rewrite Hlen.
    + split; [apply clear_inv_start|].
      split; cbn; [reflexivity | reflexivity | constructor].
Qed.

(** The pass in terms of the final state of step 3. *)
Lemma perform_check_calls_effect (g : Globals) (w : World)
    (max_size pile_radius : Z) :
  piles_config py_int g max_size pile_radius ->
  exists st,
    clear_inv (in_piles (piles_of get_distance_sqr w max_size pile_radius))
      (entity_actions g) w st
    /\ world_effect (entity_actions g) w st
    /\ perform_check_calls py_int get_distance_sqr g w
       = Ok (push_stats g (handled_entities_count st),
             cs_world st, cs_calls st).
Proof.
  intros (raw_max & raw_radius & Hmax & Hpmax & Hrad & Hprad).
  destruct (clear_piles_effect (entity_actions g) w max_size pile_radius)
    as (st & Hrun & Hinv & Heff).
  exists st. split; [exact Hinv|]. split; [exact Heff|].
  unfold perform_check_calls.
  rewrite Hmax; cbn [bind]. rewrite Hpmax; cbn [bind].
  rewrite Hrad; cbn [bind]. rewrite Hprad; cbn [bind].
  unfold piles_of, clear_start in Hrun. rewrite Hrun. reflexivity.
Qed.

End PassEffect.

Lemma entity_after_verdict (rules : list Rule) (e : Entity)
    (po : PhysicsObject) :
  physics_object e = Some po ->
  if rule_verdict rules (classname e)
  then removed (entity_after rules e) = true
       \/ is_static_entity (entity_after rules e) = true
  else entity_after rules e = e.
Proof.
  intros Hpo. unfold rule_verdict, entity_after.
  destruct (List.find _ rules) as [rule|]; [|reflexivity].
  destruct (String.eqb (rule_action rule) "remove"); cbn [orb];
    [now left|].
  destruct (String.eqb (rule_action rule) "freeze"); [|reflexivity].
  rewrite Hpo. right. unfold is_static_entity. cbn.
  now rewrite !orb_true_r.
Qed.

Lemma lookup_total_ext (l1 l2 : World) :
  length l1 = length l2 ->
  (forall i, l1 !!! i = l2 !!! i) ->
  l1 = l2.
Proof.
  revert l2. induction l1 as [|x l1 IH]; intros [|y l2] Hlen Hext;
    try discriminate; [reflexivity|].
  f_equal.
  - exact (Hext 0%nat).
  - apply IH; [now injection Hlen|]. intros i. exact (Hext (S i)).
Qed.

Section PassExtras.

Variable py_int : string -> res Z.
Variable get_distance_sqr : Vector -> Vector -> Q.

(** X9. What a pass does to the world, when the [piles] section is well
    formed: the world keeps its size; an entity on which the rule engine was
    not called is as it was; an entity on which it was called and answered
    "handled" is afterwards marked as removed or static (its motion is
    disabled), and one for which it answered "not handled" is as it was. *)
Theorem perform_check_world (g : Globals) (w : World)
    (max_size pile_radius : Z) :
  piles_config py_int g max_size pile_radius ->
  exists g' w' calls,
    perform_check_calls py_int get_distance_sqr g w = Ok (g', w', calls)
    /\ length w' = length w
    /\ (forall ref, ref ∉ map call_entity calls -> w' !!! ref = w !!! ref)
    /\ Forall
         (fun c =>
            call_state c = w !!! call_entity c
            /\ w' !!! call_entity c
               = entity_after (entity_actions g) (call_state c)
            /\ if call_result c
               then removed (w' !!! call_entity c) = true
                    \/ is_static_entity (w' !!! call_entity c) = true
               else w' !!! call_entity c = w !!! call_entity c)
         calls.
Proof.
  intros Hcfg.
  destruct (perform_check_calls_effect py_int get_distance_sqr g w max_size
              pile_radius Hcfg)
    as (st & [_ _ _ _ Hcalls] & [Hlen Hun Hcalled] & Hrun).
  exists (push_stats g (handled_entities_count st)), (cs_world st),
    (cs_calls st).
  split; [exact Hrun|]. split; [exact Hlen|]. split; [exact Hun|].
  rewrite Forall_forall in Hcalls, Hcalled |- *. intros c Hc.
  destruct (Hcalls c Hc) as (_ & [Hmoving _] & Hstate & Hres).
  cbn [fst] in Hmoving. rewrite <- Hstate in Hmoving.
  destruct (moving_physics_object _ Hmoving) as (po & Hpo & _).
  pose proof (entity_after_verdict (entity_actions g) _ po Hpo) as Hv.
  rewrite <- Hres in Hv. rewrite (Hcalled c Hc).
  split; [exact Hstate|]. split; [reflexivity|].
  destruct (call_result c); [exact Hv | now rewrite Hv].
Qed.

(** X10. A pass never touches a static entity, nor an entity that is in no
    pile, and it leaves the configuration and the rules as they were. *)
Theorem perform_check_spares (g : Globals) (w : World)
    (max_size pile_radius : Z) :
  piles_config py_int g max_size pile_radius ->
  exists g' w',
    perform_check py_int get_distance_sqr g w = Ok (g', w')
    /\ config g' = config g
    /\ entity_actions g' = entity_actions g
    /\ (forall ref, is_static_entity (w !!! ref) = true ->
                    w' !!! ref = w !!! ref)
    /\ (forall ref,
          ref ∉ pile_entities
                  (piles_of get_distance_sqr w max_size pile_radius) ->
          w' !!! ref = w !!! ref).
Proof.
  intros Hcfg.
  destruct (perform_check_calls_effect py_int get_distance_sqr g w max_size
              pile_radius Hcfg)
    as (st & [_ _ _ _ Hcalls] & [_ Hun _] & Hrun).
  exists (push_stats g (handled_entities_count st)), (cs_world st).
  split; [unfold perform_check; now rewrite Hrun|].
  split; [reflexivity|]. split; [reflexivity|].
  rewrite Forall_forall in Hcalls.
  assert (Hcalled : forall ref, ref ∈ map call_entity (cs_calls st) ->
            is_static_entity (w !!! ref) = false
            /\ ref ∈ pile_entities
                       (piles_of get_distance_sqr w max_size pile_radius)).
  { intros ref Href. apply list_elem_of_In, in_map_iff in Href.
    destruct Href as (c & <- & Hc). apply list_elem_of_In in Hc.
    destruct (Hcalls c Hc) as (Hin & [Hmoving _] & _).
    split; [exact Hmoving | now apply pile_entities_member in Hin]. }
  split; intros ref Href; apply Hun; intros Hin;
    destruct (Hcalled ref Hin) as [Hmoving Hpile]; [congruence | tauto].
Qed.

(** X11. The counter of handled entities never decreases in a pass, and
    grows by at most the number of entities of the world. *)
Theorem perform_check_counters (g : Globals) (w : World)
    (max_size pile_radius : Z) :
  piles_config py_int g max_size pile_radius ->
  exists g' w',
    perform_check py_int get_distance_sqr g w = Ok (g', w')
    /\ total_handled_entities_count g <= total_handled_entities_count g'
    /\ total_handled_entities_count g'
       <= total_handled_entities_count g + Z.of_nat (length w).
Proof.
  intros Hcfg.
  destruct (perform_check_calls_effect py_int get_distance_sqr g w max_size
              pile_radius Hcfg)
    as (st & [_ Hh Hnd Hcnt Hcalls] & _ & Hrun).
  exists (push_stats g (handled_entities_count st)), (cs_world st).
  split; [unfold perform_check; now rewrite Hrun|].
  cbn [push_stats total_handled_entities_count]. rewrite Hcnt.
  assert (Hbound : (length (handled_calls (cs_calls st)) <= length w)%nat).
  { transitivity (length (cs_calls st)); [apply length_filter|].
    rewrite <- (length_map call_index), <- Hh.
    rewrite <- (length_map index w).
    apply submseteq_length, NoDup_submseteq; [exact Hnd|].
    intros i Hi. rewrite Hh in Hi.
    apply list_elem_of_In, in_map_iff in Hi. destruct Hi as (c & <- & Hc).
    apply list_elem_of_In in Hc. rewrite Forall_forall in Hcalls.
    destruct (Hcalls c Hc) as (Hin & [_ Hidx] & _). cbn [fst snd] in Hidx.
    apply (piles_of_member get_distance_sqr) in Hin as [_ Hvalid].
    cbn [fst] in Hvalid. rewrite Hidx.
    apply list_elem_of_In, in_map. apply list_elem_of_In.
    now apply list_elem_of_lookup_total_2. }
  lia.
Qed.

(** X12. In a world whose entities are all static, the empty world
    included, a pass calls the rule engine on nothing and changes nothing
    but the counter of checks, whatever the radius and the threshold. *)
Theorem perform_check_static_world (g : Globals) (w : World)
    (max_size pile_radius : Z) :
  piles_config py_int g max_size pile_radius ->
  Forall (fun e => is_static_entity e = true) w ->
  perform_check_calls py_int get_distance_sqr g w = Ok (push_stats g 0, w, []).
Proof.
  intros Hcfg Hstatic.
  destruct (perform_check_calls_effect py_int get_distance_sqr g w max_size
              pile_radius Hcfg)
    as (st & [_ _ _ Hcnt Hcalls] & [Hlen Hun _] & Hrun).
  assert (Hnone : cs_calls st = []).
  { destruct (cs_calls st) as [|c calls]; [reflexivity|]. exfalso.
    apply Forall_cons in Hcalls as [(Hin & [Hmoving _] & _) _].
    apply (piles_of_member get_distance_sqr) in Hin as [_ Hvalid].
    cbn [fst] in Hvalid, Hmoving. rewrite Forall_forall in Hstatic.
    rewrite (Hstatic (w !!! call_entity c)) in Hmoving; [discriminate|].
    now apply list_elem_of_lookup_total_2. }
  rewrite Hrun, Hcnt, Hnone. cbn [handled_calls filter length Z.of_nat].
  rewrite Hnone in Hun.
  rewrite (lookup_total_ext (cs_world st) w Hlen); [reflexivity|].
  intros i. apply Hun. apply not_elem_of_nil.
Qed.

(** X13. The two [piles] options are read before anything else, the
    threshold first.  A missing option makes the pass raise what the lookup
    raises ([KeyError]), and an option that [int] rejects makes it raise
    what [int] raises.  Hence a pass that returns had both options present
    and accepted by [int]. *)
Theorem perform_check_piles_errors (g : Globals) (w : World) :
  (forall e,
      config_get (config g) "piles" "max_entities_per_pile" = Raise e ->
      perform_check py_int get_distance_sqr g w = Raise e)
  /\ (forall raw e,
        config_get (config g) "piles" "max_entities_per_pile" = Ok raw ->
        py_int raw = Raise e ->
        perform_check py_int get_distance_sqr g w = Raise e)
  /\ (forall raw max_size e,
        config_get (config g) "piles" "max_entities_per_pile" = Ok raw ->
        py_int raw = Ok max_size ->
        config_get (config g) "piles" "pile_radius" = Raise e ->
        perform_check py_int get_distance_sqr g w = Raise e)
  /\ (forall raw max_size raw_radius e,
        config_get (config g) "piles" "max_entities_per_pile" = Ok raw ->
        py_int raw = Ok max_size ->
        config_get (config g) "piles" "pile_radius" = Ok raw_radius ->
        py_int raw_radius = Raise e ->
        perform_check py_int get_distance_sqr g w = Raise e)
  /\ (forall g' w',
        perform_check py_int get_distance_sqr g w = Ok (g', w') ->
        exists max_size pile_radius,
          piles_config py_int g max_size pile_radius).
Proof.
  unfold perform_check, perform_check_calls. repeat apply conj.
  - now intros e ->.
  - intros raw e -> Hint. cbn [bind]. now rewrite Hint.
  - intros raw max_size e -> Hint Hrad. cbn [bind].
    rewrite Hint; cbn [bind]. now rewrite Hrad.
  - intros raw max_size raw_radius e -> Hint Hrad Hrint. cbn [bind].
    rewrite Hint; cbn [bind]. rewrite Hrad; cbn [bind]. now rewrite Hrint.
  - intros g' w' Hrun.
    destruct (config_get (config g) "piles" "max_entities_per_pile")
      as [raw_max|] eqn:Hmax; cbn [bind] in Hrun; [|discriminate].
    destruct (py_int raw_max) as [max_size|] eqn:Hpmax; cbn [bind] in Hrun;
      [|discriminate].
    destruct (config_get (config g) "piles" "pile_radius")
      as [raw_radius|] eqn:Hrad; cbn [bind] in Hrun; [|discriminate].
    destruct (py_int raw_radius) as [pile_radius|] eqn:Hprad;
      cbn [bind] in Hrun; [|discriminate].
    exists max_size, pile_radius, raw_max, raw_radius. now repeat split.
Qed.

End PassExtras.

Lemma example_static_world_config :
  piles_config Example.int_literal Example.globals 1 1
  /\ Forall (fun e => is_static_entity e = true) Example.static_world.
Proof.
  split; [exact example_piles_config|]. repeat constructor.
Defined.

Lemma perform_check_piles_errors_witness :
  perform_check Example.int_literal Example.distance_sqr
    Example.broken_globals Example.world = Raise KeyError
  /\ perform_check Example.int_literal Example.distance_sqr
       Example.zero_globals Example.world = Raise ValueError
  /\ exists max_size pile_radius,
       piles_config Example.int_literal Example.globals max_size pile_radius.
Proof.
  split; [|split].
  - apply (proj1 (perform_check_piles_errors Example.int_literal
                    Example.distance_sqr Example.broken_globals
                    Example.world)).
    vm_compute. reflexivity.
  - apply (proj1 (proj2 (perform_check_piles_errors Example.int_literal
                           Example.distance_sqr Example.zero_globals
                           Example.world)) "0").
    + vm_compute. reflexivity.
    + reflexivity.
  - destruct (perform_check_calls_run Example.int_literal
                Example.distance_sqr Example.globals Example.world 1 1
                example_piles_config) as (st & _ & _ & Hrun).
    apply (proj2 (proj2 (proj2 (proj2
             (perform_check_piles_errors Example.int_literal
                Example.distance_sqr Example.globals Example.world))))
             (push_stats Example.globals (handled_entities_count st))
             (cs_world st)).
    unfold perform_check. now rewrite Hrun.
Defined.

Lemma perform_check_world_witness :
  exists g' w' calls,
    perform_check_calls Example.int_literal Example.distance_sqr
      Example.globals Example.world = Ok (g', w', calls)
    /\ length w' = length Example.world
    /\ (forall ref, ref ∉ map call_entity calls
                    -> w' !!! ref = Example.world !!! ref)
    /\ Forall
         (fun c =>
            call_state c = Example.world !!! call_entity c
            /\ w' !!! call_entity c
               = entity_after (entity_actions Example.globals) (call_state c)
            /\ if call_result c
               then removed (w' !!! call_entity c) = true
                    \/ is_static_entity (w' !!! call_entity c) = true
               else w' !!! call_entity c = Example.world !!! call_entity c)
         calls.
Proof.
  exact (perform_check_world Example.int_literal Example.distance_sqr
           Example.globals Example.world 1 1 example_piles_config).
Defined.

Lemma perform_check_spares_witness :
  exists g' w',
    perform_check Example.int_literal Example.distance_sqr Example.globals
      Example.static_world = Ok (g', w')
    /\ config g' = config Example.globals
    /\ entity_actions g' = entity_actions Example.globals
    /\ (forall ref, is_static_entity (Example.static_world !!! ref) = true ->
                    w' !!! ref = Example.static_world !!! ref)
    /\ (forall ref,
          ref ∉ pile_entities
                  (piles_of Example.distance_sqr Example.static_world 1 1) ->
          w' !!! ref = Example.static_world !!! ref).
Proof.
  exact (perform_check_spares Example.int_literal Example.distance_sqr
           Example.globals Example.static_world 1 1 example_piles_config).
Defined.

Lemma perform_check_counters_witness :
  exists g' w',
    perform_check Example.int_literal Example.distance_sqr Example.globals
      Example.world = Ok (g', w')
    /\ total_handled_entities_count Example.globals
       <= total_handled_entities_count g'
    /\ total_handled_entities_count g'
       <= total_handled_entities_count Example.globals
          + Z.of_nat (length Example.world).
Proof.
  exact (perform_check_counters Example.int_literal Example.distance_sqr
           Example.globals Example.world 1 1 example_piles_config).
Defined.

Lemma perform_check_static_world_witness :
  perform_check_calls Example.int_literal Example.distance_sqr
    Example.globals Example.static_world
  = Ok (push_stats Example.globals 0, Example.static_world, [])
  /\ perform_check_calls Example.int_literal Example.distance_sqr
       Example.globals []
     = Ok (push_stats Example.globals 0, [], []).
Proof.
  split.
  - exact (perform_check_static_world Example.int_literal
             Example.distance_sqr Example.globals Example.static_world 1 1
             (proj1 example_static_world_config)
             (proj2 example_static_world_config)).
  - apply (perform_check_static_world Example.int_literal
             Example.distance_sqr Example.globals [] 1 1
             example_piles_config).
    constructor.
Defined.

Section SelfMembership.

Variable py_int : string -> res Z.
Variable get_distance_sqr : Vector -> Vector -> Q.

(** The distance of a position to itself is zero. *)
Hypothesis distance_refl : forall v, (get_distance_sqr v v == 0)%Q.

Lemma scan_pile_contains (w : World) (o : Vector) (r2 : Z)
    (S : list (EntityRef * Z * Vector)) (b : EntityRef * Z * Vector) :
  b ∈ S ->
  is_static_entity (w !!! b.1.1) = false ->
  (get_distance_sqr o b.2 <= inject_Z r2)%Q ->
  (b.1.1, index (w !!! b.1.1)) ∈ scan_pile get_distance_sqr w o r2 S.
Proof.
  intros Hb Hs Hd.
  change (scan_pile get_distance_sqr w o r2 S)
    with (scan_pile get_distance_sqr w (0%nat, 0, o).2 r2 S).
  rewrite scan_pile_filter. unfold neighbourhood. apply list_elem_of_In, in_map_iff. exists b.
  split; [reflexivity|].
  apply list_elem_of_In, list_elem_of_filter. split; [now split | exact Hb].
Qed.

(** X14. When a position is at distance zero from itself and
    [max_entities_per_pile] is zero or negative, every entity that is not
    static forms a pile with itself, so that a pass calls the rule engine
    with the index of every such entity. *)
Theorem perform_check_threshold_zero (g : Globals) (w : World)
    (max_size pile_radius : Z) :
  piles_config py_int g max_size pile_radius ->
  max_size <= 0 ->
  exists g' w' calls,
    perform_check_calls py_int get_distance_sqr g w = Ok (g', w', calls)
    /\ forall ref,
         (ref < length w)%nat ->
         is_static_entity (w !!! ref) = false ->
         index (w !!! ref) ∈ map call_index calls.
Proof.
  intros Hcfg Hmax.
  destruct (perform_check_calls_run py_int get_distance_sqr g w max_size
              pile_radius Hcfg) as (st & [_ Hh _ _ _] & Hcov & Hrun).
  exists (push_stats g (handled_entities_count st)), (cs_world st),
    (cs_calls st).
  split; [exact Hrun|]. intros ref Hvalid Hmoving.
  rewrite <- Hh. apply Hcov.
  assert (Hb : (ref, index (w !!! ref), origin (w !!! ref))
               ∈ collect_entities w).
  { unfold collect_entities, EntityIter.
    apply list_elem_of_In, in_map_iff. exists ref. split; [reflexivity|].
    apply list_elem_of_In, elem_of_seq. lia. }
  assert (Hself : (ref, index (w !!! ref))
                  ∈ scan_pile get_distance_sqr w (origin (w !!! ref))
                      (pile_radius ^ 2) (collect_entities w)).
  { apply (scan_pile_contains w _ _ _ _ Hb Hmoving). cbn [snd].
    rewrite distance_refl. change 0%Q with (inject_Z 0).
    rewrite <- Zle_Qle.
    apply Z.pow_even_nonneg. now exists 1. }
  exists (scan_pile get_distance_sqr w (origin (w !!! ref))
            (pile_radius ^ 2) (collect_entities w)), ref.
  split; [|exact Hself].
  unfold piles_of. rewrite detect_piles_filter.
  apply list_elem_of_In, in_map_iff.
  exists (ref, index (w !!! ref), origin (w !!! ref)). split.
  - symmetry.
    exact (scan_pile_filter get_distance_sqr w _ _
             (ref, index (w !!! ref), origin (w !!! ref))).
  - apply list_elem_of_In, list_elem_of_filter. split; [|exact Hb].
    unfold oversized.
    rewrite <- (scan_pile_filter get_distance_sqr w _ _
                  (ref, index (w !!! ref), origin (w !!! ref))).
    cbn [snd]. destruct (scan_pile _ _ _ _ _) as [|m ms];
      [now apply elem_of_nil in Hself | cbn [length]; lia].
Qed.

End SelfMembership.

Lemma example_distance_refl (v : Vector) :
  (Example.distance_sqr v v == 0)%Q.
Proof. unfold Example.distance_sqr. ring. Qed.

Lemma perform_check_threshold_zero_witness :
  exists g' w' calls,
    perform_check_calls Example.zero_int_literal Example.distance_sqr
      Example.zero_globals Example.world
    = Ok (g', w', calls)
    /\ forall ref,
         (ref < length Example.world)%nat ->
         is_static_entity (Example.world !!! ref) = false ->
         index (Example.world !!! ref) ∈ map call_index calls.
Proof.
  apply (perform_check_threshold_zero Example.zero_int_literal
           Example.distance_sqr example_distance_refl Example.zero_globals
           Example.world 0 0).
  - exists "0", "0". repeat split; vm_compute; reflexivity.
  - lia.
Defined.

(** ** The watcher over a level *)

Section Level.

Variable py_int : string -> res Z.
Variable py_float : string -> res float.
Variable get_distance_sqr : Vector -> Vector -> Q.

(** X15. A level from its start.  The level-init listener sets both
    counters to zero and keeps the configuration and the rules.  Once the
    watcher stopped by the level-end listener has been started, its first
    tick only stores the frame counter and the counters stay at zero.  When
    the second tick finds a delta of at most the threshold (and the [piles]
    section is well formed) it runs the first pass of the level: the number
    of checks is then 1, the number of handled entities lies between zero
    and the number of entities, and the watcher reports the delta. *)
Theorem level_first_check (g : Globals) (frame_watcher : FrameWatcher)
    (raw : string) (interval : float) (f1 f2 : Z) (w1 w2 : World)
    (max_size pile_radius : Z) :
  config_get (config g) "frame_measurement" "interval" = Ok raw ->
  py_float raw = Ok interval ->
  piles_config py_int g max_size pile_radius ->
  f2 - f1 <= _min_frames_per_interval frame_watcher ->
  let g0 := (listener_on_level_init py_float g).1 in
  exists started ticked g' w',
    total_checks_issued g0 = 0
    /\ total_handled_entities_count g0 = 0
    /\ config g0 = config g
    /\ entity_actions g0 = entity_actions g
    /\ FrameWatcher_start py_float (listener_on_level_end frame_watcher) g0
       = Ok started
    /\ _repeat started = Running interval
    /\ _watch py_int get_distance_sqr started f1 g0 w1
       = Ok (set_last_watch_frame started (Some f1), g0, w1)
    /\ _watch py_int get_distance_sqr
         (set_last_watch_frame started (Some f1)) f2 g0 w2
       = Ok (ticked, g', w')
    /\ total_checks_issued g' = 1
    /\ 0 <= total_handled_entities_count g' <= Z.of_nat (length w2)
    /\ last_frame_count ticked = f2 - f1
    /\ _last_watch_frame ticked = Some f2.
Proof.
  intros Hraw Hfloat Hcfg Hdelta g0.
  set (started := set_repeat (listener_on_level_end frame_watcher)
                    (Running interval)).
  assert (Hcfg0 : piles_config py_int g0 max_size pile_radius) by exact Hcfg.
  destruct (perform_check_calls_effect py_int get_distance_sqr g0 w2
              max_size pile_radius Hcfg0)
    as (st & [_ Hh Hnd Hcnt Hcalls] & _ & Hrun).
  assert (Hbound : (length (handled_calls (cs_calls st)) <= length w2)%nat).
  { transitivity (length (cs_calls st)); [apply length_filter|].
    rewrite <- (length_map call_index), <- Hh.
    rewrite <- (length_map index w2).
    apply submseteq_length, NoDup_submseteq; [exact Hnd|].
    intros i Hi. rewrite Hh in Hi.
    apply list_elem_of_In, in_map_iff in Hi. destruct Hi as (c & <- & Hc).
    apply list_elem_of_In in Hc. rewrite Forall_forall in Hcalls.
    destruct (Hcalls c Hc) as (Hin & [_ Hidx] & _). cbn [fst snd] in Hidx.
    apply (piles_of_member get_distance_sqr) in Hin as [_ Hvalid].
    cbn [fst] in Hvalid. rewrite Hidx.
    apply list_elem_of_In, in_map. apply list_elem_of_In.
    now apply list_elem_of_lookup_total_2. }
  exists started,
    (set_last_watch_frame
       (set_last_delta_frame (set_last_watch_frame started (Some f1))
          (Some (f2 - f1))) (Some f2)),
    (push_stats g0 (handled_entities_count st)), (cs_world st).
  repeat apply conj; try reflexivity.
  - unfold FrameWatcher_start. change (config g0) with (config g).
    rewrite Hraw; cbn [bind]. now rewrite Hfloat.
  - unfold _watch.
    cbn [_last_watch_frame set_last_watch_frame set_last_delta_frame
         _min_frames_per_interval started set_repeat listener_on_level_end
         FrameWatcher_stop].
    rewrite (proj2 (Z.leb_le _ _)) by exact Hdelta.
    unfold perform_check. rewrite Hrun. reflexivity.
  - cbn [push_stats total_handled_entities_count]. rewrite Hcnt.
    cbn [g0 listener_on_level_init fst total_handled_entities_count]. lia.
  - cbn [push_stats total_handled_entities_count]. rewrite Hcnt.
    cbn [g0 listener_on_level_init fst total_handled_entities_count]. lia.
Qed.

End Level.

Lemma level_first_check_witness :
  let g0 := (listener_on_level_init Example.float_literal
               Example.busy_globals).1 in
  exists started ticked g' w',
    total_checks_issued g0 = 0
    /\ total_handled_entities_count g0 = 0
    /\ config g0 = config Example.busy_globals
    /\ entity_actions g0 = entity_actions Example.busy_globals
    /\ FrameWatcher_start Example.float_literal
         (listener_on_level_end Example.watcher) g0 = Ok started
    /\ _repeat started = Running 2.0%float
    /\ _watch Example.int_literal Example.distance_sqr started 50 g0
         Example.world
       = Ok (set_last_watch_frame started (Some 50), g0, Example.world)
    /\ _watch Example.int_literal Example.distance_sqr
         (set_last_watch_frame started (Some 50)) 150 g0 Example.world
       = Ok (ticked, g', w')
    /\ total_checks_issued g' = 1
    /\ 0 <= total_handled_entities_count g'
       <= Z.of_nat (length Example.world)
    /\ last_frame_count ticked = 150 - 50
    /\ _last_watch_frame ticked = Some 150.
Proof.
  apply (level_first_check Example.int_literal Example.float_literal
           Example.distance_sqr Example.busy_globals Example.watcher
           "2.0" 2.0%float 50 150 Example.world Example.world 1 1).
  - vm_compute. reflexivity.
  - reflexivity.
  - exists "1", "1". repeat split; vm_compute; reflexivity.
  - cbn. lia.
Defined.

(** ** More on reloading *)

Section ReloadExtras.

Variable py_int : string -> res Z.
Variable py_float : string -> res float.
Variable ENT_ANTISPAM_CFG_PATH : string.

(** X16. Reloading twice from unchanged files is reloading once: the
    second reload ends like the first and leaves the same globals, whether
    the reload returns or raises. *)
Theorem reload_configs_idempotent (fs : FileSystem) (g : Globals) :
  reload_configs ENT_ANTISPAM_CFG_PATH fs
    (reload_configs ENT_ANTISPAM_CFG_PATH fs g).1
  = reload_configs ENT_ANTISPAM_CFG_PATH fs g.
Proof.
  unfold reload_configs.
  destruct (config_read fs _) as [parser [e|]]; [reflexivity|].
  destruct (json_load fs _) as [rules|e]; reflexivity.
Qed.

(** X17. Each of the two files is read from its [_server] variant exactly
    when that variant is a file, independently of the other: the
    configuration comes from [config_server.ini] if it is a file and from
    [config.ini] otherwise, and likewise the rules from
    [entity_actions_server.json] or [entity_actions.json]. *)
Theorem reload_configs_server_files (fs : FileSystem) (g : Globals) :
  let ini := cfg_file ENT_ANTISPAM_CFG_PATH "config" ".ini" in
  let ini_server := cfg_file ENT_ANTISPAM_CFG_PATH "config_server" ".ini" in
  let json := cfg_file ENT_ANTISPAM_CFG_PATH "entity_actions" ".json" in
  let json_server :=
    cfg_file ENT_ANTISPAM_CFG_PATH "entity_actions_server" ".json" in
  let after := (reload_configs ENT_ANTISPAM_CFG_PATH fs g).1 in
  config after
  = (config_read fs (if isfile fs ini_server then ini_server else ini)).1
  /\ ((config_read fs (if isfile fs ini_server then ini_server else ini)).2
      = None ->
      forall rules,
        json_load fs (if isfile fs json_server then json_server else json)
        = Ok rules ->
        entity_actions after = rules).
Proof.
  cbv zeta. unfold reload_configs, get_server_file, cfg_file.
  cbn [dirname namebase ext].
  change ("config" ++ "_server") with "config_server".
  change ("entity_actions" ++ "_server") with "entity_actions_server".
  destruct (isfile fs {| dirname := _; namebase := "config_server" |});
    destruct (isfile fs
                {| dirname := _; namebase := "entity_actions_server" |});
    destruct (config_read fs _) as [parser [e|]]; cbn [fst snd];
    try (destruct (json_load fs _) as [loaded|e']);
    cbn [fst snd config entity_actions];
    (split; [reflexivity|]); try discriminate;
    intros _ rules Hrules; congruence.
Qed.

(** How [reload_config] with and without the watcher it leaves behind
    relate. *)
Lemma reload_config_state_result (self : FrameWatcher) (g : Globals)
    (interval_per_tick : float) :
  FrameWatcher_reload_config py_int py_float self g interval_per_tick
  = match FrameWatcher_reload_config_state py_int py_float self g
            interval_per_tick with
    | (watcher, Ok _) => Ok watcher
    | (_, Raise e) => Raise e
    end.
Proof.
  unfold FrameWatcher_reload_config, FrameWatcher_reload_config_state.
  destruct (get_min_frames_per_interval _ _ _ _) as [threshold|e];
    cbn [bind]; [|reflexivity].
  now destruct (FrameWatcher_start _ _ _).
Qed.

(** X18. When both files load, the threshold resolves and the interval is
    a float, the reload command installs the new configuration and rules
    and restarts the watcher: the timer runs with the new interval even if
    it was running with another one, the threshold is the newly resolved
    one, the last sample is gone, so that the next tick only stores a
    baseline, and the last measured delta is kept. *)
Theorem reload_command_restarts (fs : FileSystem) (g g1 : Globals)
    (frame_watcher : FrameWatcher) (interval_per_tick : float)
    (threshold : Z) (raw : string) (interval : float) :
  reload_configs ENT_ANTISPAM_CFG_PATH fs g = (g1, Ok tt) ->
  get_min_frames_per_interval py_int py_float g1 interval_per_tick
  = Ok threshold ->
  config_get (config g1) "frame_measurement" "interval" = Ok raw ->
  py_float raw = Ok interval ->
  typed_server_ent_antispam_reload_configs py_int py_float
    ENT_ANTISPAM_CFG_PATH fs g frame_watcher interval_per_tick
  = (g1,
     {| _repeat := Running interval;
        _last_watch_frame := None;
        _last_delta_frame := _last_delta_frame frame_watcher;
        _min_frames_per_interval := threshold |},
     Ok tt).
Proof.
  intros Hreload Hmin Hraw Hfloat.
  unfold typed_server_ent_antispam_reload_configs. rewrite Hreload.
  unfold FrameWatcher_reload_config_state. rewrite Hmin.
  unfold FrameWatcher_start. rewrite Hraw; cbn [bind].
  rewrite Hfloat; cbn [bind]. reflexivity.
Qed.

(** X19. When the configuration file loads and the rule list does not, the
    reload command raises and does not reach the watcher: the new
    configuration is in place with the previous rules, while the watcher
    goes on with the threshold, the timer and the samples it had. *)
Theorem reload_command_bad_rules (fs : FileSystem) (g : Globals)
    (frame_watcher : FrameWatcher) (interval_per_tick : float) (e : exn) :
  let ini :=
    get_server_file fs (cfg_file ENT_ANTISPAM_CFG_PATH "config" ".ini") in
  let json :=
    get_server_file fs
      (cfg_file ENT_ANTISPAM_CFG_PATH "entity_actions" ".json") in
  (config_read fs ini).2 = None ->
  json_load fs json = Raise e ->
  typed_server_ent_antispam_reload_configs py_int py_float
    ENT_ANTISPAM_CFG_PATH fs g frame_watcher interval_per_tick
  = ({| config := (config_read fs ini).1;
        entity_actions := entity_actions g;
        total_handled_entities_count := total_handled_entities_count g;
        total_checks_issued := total_checks_issued g |},
     frame_watcher, Raise e).
Proof.
  cbv zeta. intros Hini Hjson.
  unfold typed_server_ent_antispam_reload_configs, reload_configs.
  destruct (config_read fs _) as [parser raised]. cbn [snd] in Hini.
  subst raised. now rewrite Hjson.
Qed.

(** X20. When the new configuration has an explicit threshold and an
    interval that [float] rejects, the reload command raises after the
    watcher was stopped: the watcher is left stopped, with the new
    threshold and without a last sample.  With the threshold on "auto" the
    same interval makes the command raise before the watcher is touched. *)
Theorem reload_command_bad_interval (fs : FileSystem) (g g1 : Globals)
    (frame_watcher : FrameWatcher) (interval_per_tick : float)
    (value raw : string) (e : exn) :
  reload_configs ENT_ANTISPAM_CFG_PATH fs g = (g1, Ok tt) ->
  config_get (config g1) "frame_measurement" "min_frames_per_interval"
  = Ok value ->
  config_get (config g1) "frame_measurement" "interval" = Ok raw ->
  py_float raw = Raise e ->
  (forall threshold,
      PyStr.lower value <> "auto" ->
      py_int value = Ok threshold ->
      typed_server_ent_antispam_reload_configs py_int py_float
        ENT_ANTISPAM_CFG_PATH fs g frame_watcher interval_per_tick
      = (g1,
         {| _repeat := Stopped;
            _last_watch_frame := None;
            _last_delta_frame := _last_delta_frame frame_watcher;
            _min_frames_per_interval := threshold |},
         Raise e))
  /\ (PyStr.lower value = "auto" ->
      typed_server_ent_antispam_reload_configs py_int py_float
        ENT_ANTISPAM_CFG_PATH fs g frame_watcher interval_per_tick
      = (g1, frame_watcher, Raise e)).
Proof.
  intros Hreload Hvalue Hraw Hfloat.
  unfold typed_server_ent_antispam_reload_configs. rewrite Hreload.
  unfold FrameWatcher_reload_config_state, get_min_frames_per_interval.
  rewrite Hvalue; cbn [bind]. split.
  - intros threshold Hexplicit Hint.
    apply String.eqb_neq in Hexplicit. rewrite Hexplicit, Hint.
    unfold FrameWatcher_start. rewrite Hraw; cbn [bind].
    rewrite Hfloat; cbn [bind]. reflexivity.
  - intros Hauto. rewrite Hauto, String.eqb_refl.
    rewrite Hraw; cbn [bind]. rewrite Hfloat; cbn [bind]. reflexivity.
Qed.

(** X21. How resolving the threshold fails or bypasses the interval.  A
    missing option raises [KeyError].  An explicit value is handed to
    [int], whatever the interval and the tick duration are.  On "auto" a
    tick duration of zero raises [ZeroDivisionError], and a product that is
    infinite or not a number raises [OverflowError] or [ValueError]. *)
Theorem get_min_frames_per_interval_errors (g : Globals)
    (interval_per_tick : float) :
  (config_get (config g) "frame_measurement" "min_frames_per_interval"
   = Raise KeyError ->
   get_min_frames_per_interval py_int py_float g interval_per_tick
   = Raise KeyError)
  /\ (forall value,
        config_get (config g) "frame_measurement" "min_frames_per_interval"
        = Ok value ->
        PyStr.lower value <> "auto" ->
        get_min_frames_per_interval py_int py_float g interval_per_tick
        = py_int value)
  /\ (forall value raw interval,
        config_get (config g) "frame_measurement" "min_frames_per_interval"
        = Ok value ->
        PyStr.lower value = "auto" ->
        config_get (config g) "frame_measurement" "interval" = Ok raw ->
        py_float raw = Ok interval ->
        (PrimFloat.is_zero interval_per_tick = true ->
         get_min_frames_per_interval py_int py_float g interval_per_tick
         = Raise ZeroDivisionError)
        /\ (PrimFloat.is_zero interval_per_tick = false ->
            forall s,
              Prim2SF (PrimFloat.mul
                         (PrimFloat.div interval interval_per_tick)
                         MIN_TICKS_PER_INTERVAL_AUTO_MULTIPLIER)
              = S754_infinity s ->
              get_min_frames_per_interval py_int py_float g
                interval_per_tick = Raise OverflowError)
        /\ (PrimFloat.is_zero interval_per_tick = false ->
            Prim2SF (PrimFloat.mul
                       (PrimFloat.div interval interval_per_tick)
                       MIN_TICKS_PER_INTERVAL_AUTO_MULTIPLIER)
            = S754_nan ->
            get_min_frames_per_interval py_int py_float g
              interval_per_tick = Raise ValueError)).
Proof.
  unfold get_min_frames_per_interval. split; [|split].
  - now intros ->.
  - intros value -> Hexplicit. cbn [bind].
    apply String.eqb_neq in Hexplicit. now rewrite Hexplicit.
  - intros value raw interval -> Hauto Hraw Hfloat. cbn [bind].
    rewrite Hauto, String.eqb_refl, Hraw; cbn [bind].
    rewrite Hfloat; cbn [bind]. unfold PyFloat.truediv.
    split; [|split].
    + now intros ->.
    + intros -> s Hinf. cbn [bind]. unfold PyFloat.to_int. now rewrite Hinf.
    + intros -> Hnan. cbn [bind]. unfold PyFloat.to_int. now rewrite Hnan.
Qed.

End ReloadExtras.

Lemma reload_configs_server_files_witness :
  config (reload_configs "cfg" Example.server_files Example.globals).1
  = Example.new_parser
  /\ entity_actions
       (reload_configs "cfg" Example.server_files Example.globals).1
     = Example.stop_rules.
Proof.
  split.
  - exact (proj1 (reload_configs_server_files "cfg" Example.server_files
                    Example.globals)).
  - apply (proj2 (reload_configs_server_files "cfg" Example.server_files
                    Example.globals)); reflexivity.
Defined.

Lemma reload_command_restarts_witness :
  typed_server_ent_antispam_reload_configs Example.int_literal
    Example.float_literal "cfg" Example.good_files Example.globals
    Example.watcher 0.015%float
  = ({| config := Example.new_parser;
        entity_actions := Example.stop_rules;
        total_handled_entities_count := 0;
        total_checks_issued := 0 |},
     {| _repeat := Running 2.0%float;
        _last_watch_frame := None;
        _last_delta_frame := Some 133;
        _min_frames_per_interval := 126 |},
     Ok tt).
Proof.
  apply (reload_command_restarts Example.int_literal Example.float_literal
           "cfg" Example.good_files Example.globals _ Example.watcher
           0.015%float 126 "2.0" 2.0%float);
    vm_compute; reflexivity.
Defined.

Lemma reload_command_bad_rules_witness :
  typed_server_ent_antispam_reload_configs Example.int_literal
    Example.float_literal "cfg" Example.bad_rules_files Example.globals
    Example.watcher 0.015%float
  = ({| config := Example.new_parser;
        entity_actions := Example.rules;
        total_handled_entities_count := 0;
        total_checks_issued := 0 |},
     Example.watcher, Raise JSONDecodeError).
Proof.
  apply (reload_command_bad_rules Example.int_literal Example.float_literal
           "cfg" Example.bad_rules_files Example.globals Example.watcher
           0.015%float JSONDecodeError); reflexivity.
Defined.

Lemma reload_command_bad_interval_witness :
  typed_server_ent_antispam_reload_configs Example.int_literal
    Example.float_literal "cfg" Example.broken_interval_files
    Example.globals Example.watcher 0.015%float
  = ({| config := Example.broken_parser;
        entity_actions := Example.stop_rules;
        total_handled_entities_count := 0;
        total_checks_issued := 0 |},
     {| _repeat := Stopped;
        _last_watch_frame := None;
        _last_delta_frame := Some 133;
        _min_frames_per_interval := 1 |},
     Raise ValueError).
Proof.
  apply (proj1 (reload_command_bad_interval Example.int_literal
                  Example.float_literal "cfg" Example.broken_interval_files
                  Example.globals _ Example.watcher 0.015%float
                  "1" "fast" ValueError
                  eq_refl ltac:(vm_compute; reflexivity)
                  ltac:(vm_compute; reflexivity) eq_refl)).
  - discriminate.
  - reflexivity.
Defined.

Lemma get_min_frames_per_interval_errors_witness :
  get_min_frames_per_interval Example.int_literal Example.float_literal
    Example.zero_globals 0.015%float = Raise KeyError
  /\ get_min_frames_per_interval Example.int_literal Example.float_literal
       Example.broken_globals 0%float = Ok 1
  /\ get_min_frames_per_interval Example.int_literal Example.float_literal
       Example.globals 0%float = Raise ZeroDivisionError.
Proof.
  split; [|split].
  - apply (proj1 (get_min_frames_per_interval_errors Example.int_literal
                    Example.float_literal Example.zero_globals
                    0.015%float)).
    vm_compute. reflexivity.
  - refine (eq_trans
              (proj1 (proj2 (get_min_frames_per_interval_errors
                               Example.int_literal Example.float_literal
                               Example.broken_globals 0%float)) "1" _ _) _).
    + vm_compute. reflexivity.
    + discriminate.
    + reflexivity.
  - apply (proj1 (proj2 (proj2 (get_min_frames_per_interval_errors
                                  Example.int_literal Example.float_literal
                                  Example.globals 0%float))
                    "Auto" "2.0" 2.0%float
                    ltac:(vm_compute; reflexivity) eq_refl
                    ltac:(vm_compute; reflexivity) eq_refl)).
    reflexivity.
Defined.

(** ** A new watcher *)

Section NewWatcher.

Variable py_int : string -> res Z.
Variable py_float : string -> res float.
Variable get_distance_sqr : Vector -> Vector -> Q.

(** X22. A watcher is constructed exactly when the threshold resolves, and
    raises what resolving it raises otherwise.  A new watcher is stopped,
    holds the resolved threshold and reports -1 as its last frame count;
    its first tick runs no pass and it still reports -1 afterwards. *)
Theorem new_watcher (g : Globals) (interval_per_tick : float) :
  match get_min_frames_per_interval py_int py_float g interval_per_tick with
  | Raise e =>
      FrameWatcher_init py_int py_float g interval_per_tick = Raise e
  | Ok threshold =>
      exists self,
        FrameWatcher_init py_int py_float g interval_per_tick = Ok self
        /\ _repeat self = Stopped
        /\ _min_frames_per_interval self = threshold
        /\ last_frame_count self = -1
        /\ forall frame_count w,
             exists ticked,
               _watch py_int get_distance_sqr self frame_count g w
               = Ok (ticked, g, w)
               /\ last_frame_count ticked = -1
               /\ _last_watch_frame ticked = Some frame_count
  end.
Proof.
  unfold FrameWatcher_init.
  destruct (get_min_frames_per_interval _ _ _ _) as [threshold|e];
    cbn [bind]; [|reflexivity].
  eexists. split; [reflexivity|]. repeat split.
  intros frame_count w. eexists. split; [reflexivity|]. now split.
Qed.

End NewWatcher.
